(** * The crawl server's admission, strategy-resolution and fan-out core

    A shallow embedding of [src/main.py] (the FastAPI handler [crawl_urls],
    the resolver [import_strategy] and the request model [CrawlRequest]),
    followed by the properties the specification states about them.

    The handler is written in a small state-and-exception monad: the state
    holds the process-wide counter [current_requests], the (mutable) request
    object and a trace of the calls the handler makes to its collaborators
    (strategy constructors, the worker pool).  Python's [try ... finally] and
    [try ... except] are combinators of that monad. *)

From stdpp Require Import gmap strings list fin_maps.
From Stdlib Require Import ZArith Lia.

Local Open Scope string_scope.
Local Open Scope Z_scope.

(** ** Python values, exceptions *)

(** The JSON-shaped values a request's argument mappings and a serialised
    result can hold. *)
#[local] Unset Elimination Schemes.
Inductive pyval : Type :=
| VNone
| VBool (b : bool)
| VInt (z : Z)
| VStr (s : string)
| VList (l : list pyval)
| VDict (d : list (string * pyval)).
#[local] Set Elimination Schemes.

(** A Python [dict] with string keys (keyword arguments, serialised records). *)
Abbreviation dict := (gmap string pyval).

(** The exception classes the handler distinguishes.  [ImportError] and
    [AttributeError] stand for the class and its subclasses (that is what an
    [except] clause catches); [OtherError] is any class outside those named
    here. *)
Inductive exn : Type :=
| ImportError (msg : string)
| AttributeError (msg : string)
| TypeError (msg : string)
| HTTPException (status_code : Z) (detail : string)
| OtherError (cls msg : string).

(** ** Configuration (lines 23-24) *)

Definition MAX_CONCURRENT_REQUESTS : Z := 10.

(** ** The request model (lines 48-59) *)

Record CrawlRequest : Type := mkCrawlRequest {
  urls : list string;
  include_raw_html : option bool;
  bypass_cache : bool;
  extract_blocks : bool;
  word_count_threshold : option Z;
  extraction_strategy : option string;
  extraction_strategy_args : option dict;
  chunking_strategy : option string;
  chunking_strategy_args : option dict;
  css_selector : option string;
  verbose : option bool
}.

(** The request pydantic builds when the caller sends only [urls]. *)
Definition CrawlRequest_default (us : list string) : CrawlRequest :=
  {| urls := us;
     include_raw_html := Some false;
     bypass_cache := false;
     extract_blocks := true;
     word_count_threshold := Some 5;
     extraction_strategy := Some "NoExtractionStrategy";
     extraction_strategy_args := Some ∅;
     chunking_strategy := Some "RegexChunking";
     chunking_strategy_args := Some ∅;
     css_selector := None;
     verbose := Some true |}.

Definition set_extraction_strategy_args (a : option dict) (r : CrawlRequest)
  : CrawlRequest :=
  {| urls := urls r;
     include_raw_html := include_raw_html r;
     bypass_cache := bypass_cache r;
     extract_blocks := extract_blocks r;
     word_count_threshold := word_count_threshold r;
     extraction_strategy := extraction_strategy r;
     extraction_strategy_args := a;
     chunking_strategy := chunking_strategy r;
     chunking_strategy_args := chunking_strategy_args r;
     css_selector := css_selector r;
     verbose := verbose r |}.

Definition set_chunking_strategy_args (a : option dict) (r : CrawlRequest)
  : CrawlRequest :=
  {| urls := urls r;
     include_raw_html := include_raw_html r;
     bypass_cache := bypass_cache r;
     extract_blocks := extract_blocks r;
     word_count_threshold := word_count_threshold r;
     extraction_strategy := extraction_strategy r;
     extraction_strategy_args := extraction_strategy_args r;
     chunking_strategy := chunking_strategy r;
     chunking_strategy_args := a;
     css_selector := css_selector r;
     verbose := verbose r |}.

(** ** The result record *)

(** Modelled from the spec: the [CrawlResult] record, declared in
    [crawl4ai.models] and absent from [src/].  The spec's data model gives it
    extracted blocks, chunked segments, optional raw content and an embedded
    success/failure indication; the handler reads and writes only [html] and
    serialises the record with [dict()]. *)
Record CrawlResult : Type := mkCrawlResult {
  html : option string;
  extracted_blocks : list string;
  chunked_segments : list string;
  success : bool
}.

(** [result.html = value] *)
Definition set_html (v : option string) (r : CrawlResult) : CrawlResult :=
  {| html := v;
     extracted_blocks := extracted_blocks r;
     chunked_segments := chunked_segments r;
     success := success r |}.

Definition opt_str (o : option string) : pyval :=
  match o with Some s => VStr s | None => VNone end.

(** [result.dict()] *)
Definition CrawlResult_dict (r : CrawlResult) : dict :=
  <["html" := opt_str (html r)]>
  (<["extracted_blocks" := VList (VStr <$> extracted_blocks r)]>
  (<["chunked_segments" := VList (VStr <$> chunked_segments r)]>
  (<["success" := VBool (success r)]> ∅))).

(** The handler's return value, [{"results": [...]}]. *)
Record Reply : Type := mkReply { results : list dict }.

(** ** What FastAPI sends for a handler's outcome

    A returned value is a 200 response; a raised [HTTPException] is a
    response with its own status code; any other exception that escapes the
    handler is the framework's generic 500. *)
Definition http_status (out : exn + Reply) : Z :=
  match out with
  | inr _ => 200
  | inl (HTTPException s _) => s
  | inl _ => 500
  end.

(** ** The admission counter's two critical sections *)

(** Lines 101-104: the check and the increment, one [async with lock] block. *)
Definition try_admit (c : Z) : exn + Z :=
  if bool_decide (MAX_CONCURRENT_REQUESTS ≤ c)
  then inl (HTTPException 429 "Too many requests - please try again later.")
  else inr (c + 1).

(** Lines 141-142. *)
Definition release (c : Z) : Z := c - 1.

(** ** Keyword arguments at the call of the resolver

    The resolver is declared with the two positional parameters
    [module_name] and [class_name] (line 85), and lines 111-112 call it with
    the request's mapping unpacked into keyword arguments.  A key of the
    mapping named like one of the two parameters is a second value for it:
    Python raises a [TypeError] at the call, before the function body
    runs. *)
Definition collides (kwargs : dict) : bool :=
  bool_decide (is_Some (kwargs !! "module_name") ∨
               is_Some (kwargs !! "class_name")).

(** ** The collaborators and the handler *)

Section Server.

(** A live strategy object (an extraction or a chunking strategy); the
    handler only passes it on. *)
Context {Strategy : Type}.

(** The seven positional arguments of one [WebCrawler.run] call
    (lines 122-128). *)
Record EngineCall : Type := mkEngineCall {
  call_url : string;
  call_word_count_threshold : option Z;
  call_extraction_strategy : Strategy;
  call_chunking_strategy : Strategy;
  call_bypass_cache : bool;
  call_css_selector : option string;
  call_verbose : option bool
}.

(** What a worker-pool future holds once its job has finished: the
    returned result, or the exception the job raised. *)
Definition Future : Type := (exn + CrawlResult)%type.

(** The attribute of a strategy module under a name: something that is
    called with keyword arguments and returns a strategy or raises. *)
Definition PyCallable : Type := dict → exn + Strategy.

(** A module's namespace: [None] where [getattr] raises [AttributeError]. *)
Definition PyModule : Type := string → option PyCallable.

(** The crawler engine's [run] method.  Its answer depends on more than
    its arguments (it fetches from the network), so the position of the
    job in the batch is passed along with them. *)
Definition Crawler : Type := nat → EngineCall → Future.

(** [importlib.import_module]: [None] where it raises [ImportError]. *)
Context (import_module : string → option PyModule).

(** The constructor call [WebCrawler(verbose = True)] of line 46. *)
Context (WebCrawler : bool → exn + Crawler).

(** The calls the handler makes to its collaborators, in program order. *)
Inductive Event : Type :=
| EvConstruct (module_name : string) (class_name : option string)
    (kwargs : dict)
| EvSubmit (position : nat) (call : EngineCall).

Record State : Type := mkState {
  current_requests : Z;
  crawl_request : CrawlRequest;
  trace : list Event
}.

Definition set_current_requests (c : Z) (s : State) : State :=
  {| current_requests := c;
     crawl_request := crawl_request s;
     trace := trace s |}.

Definition set_crawl_request (r : CrawlRequest) (s : State) : State :=
  {| current_requests := current_requests s;
     crawl_request := r;
     trace := trace s |}.

Definition add_event (e : Event) (s : State) : State :=
  {| current_requests := current_requests s;
     crawl_request := crawl_request s;
     trace := trace s ++ [e] |}.

(** *** The monad *)

Definition M (A : Type) : Type := State → (exn + A) * State.

Definition ret {A} (a : A) : M A := λ s, (inr a, s).

Definition raise {A} (e : exn) : M A := λ s, (inl e, s).

Definition bind {A B} (m : M A) (k : A → M B) : M B :=
  λ s, match m s with
       | (inr a, s') => k a s'
       | (inl e, s') => (inl e, s')
       end.

Definition gets {A} (f : State → A) : M A := λ s, (inr (f s), s).

Definition modify (f : State → State) : M unit := λ s, (inr tt, f s).

Definition lift {A} (r : exn + A) : M A := λ s, (r, s).

(** [try: body finally: fin]: [fin] runs whatever [body] did; the outcome
    is [body]'s unless [fin] itself raises. *)
Definition try_finally {A} (body : M A) (fin : M unit) : M A :=
  λ s, match body s with
       | (r, s') =>
           match fin s' with
           | (inr _, s'') => (r, s'')
           | (inl e, s'') => (inl e, s'')
           end
       end.

(** [try: body except: handler] with the handler given the exception. *)
Definition try_except {A} (body : M A) (handler : exn → M A) : M A :=
  λ s, match body s with
       | (inr a, s') => (inr a, s')
       | (inl e, s') => handler e s'
       end.

#[local] Instance M_ret : MRet M := @ret.
#[local] Instance M_bind : MBind M := λ A B k m, bind m k.

(** *** The strategy resolver (lines 85-95) *)

(** [getattr(module, class_name)]; the name comes from an
    [Optional[str]] field, and [getattr] refuses a name that is not a
    string. *)
Definition getattr (module : PyModule) (class_name : option string)
  : M PyCallable :=
  match class_name with
  | None => raise (TypeError "attribute name must be string")
  | Some n =>
      match module n with
      | Some c => ret c
      | None => raise (AttributeError n)
      end
  end.

(** The call of [strategy_class] with the keyword arguments unpacked. *)
Definition construct (module_name : string) (class_name : option string)
    (strategy_class : PyCallable) (kwargs : dict) : M Strategy :=
  modify (add_event (EvConstruct module_name class_name kwargs));;
  lift (strategy_class kwargs).

(** [str(x)] inside an f-string, for an [Optional[str]]. *)
Definition str (o : option string) : string := default "None" o.

Definition import_strategy (module_name : string)
    (class_name : option string) (kwargs : dict) : M Strategy :=
  try_except
    (module ← match import_module module_name with
              | Some m => ret m
              | None => raise (ImportError module_name)
              end;
     strategy_class ← getattr module class_name;
     construct module_name class_name strategy_class kwargs)
    (λ e, match e with
          | ImportError _ =>
              raise (HTTPException 400
                       ("Module " +:+ module_name +:+ " not found."))
          | AttributeError _ =>
              raise (HTTPException 400
                       ("Class " +:+ str class_name +:+ " not found in "
                        +:+ module_name +:+ "."))
          | _ => raise e
          end).

(** *** The fan-out and the join (lines 116-132) *)

(** [get_crawler()] (lines 43-46): the cached constructor call. *)
Definition get_crawler : M Crawler := lift (WebCrawler true).

(** The arguments of the job for one URL (lines 122-128); [str(url)] is
    the identity on a string. *)
Definition job_call (req : CrawlRequest)
    (extraction_strategy chunking_strategy : Strategy) (url : string)
  : EngineCall :=
  {| call_url := url;
     call_word_count_threshold := word_count_threshold req;
     call_extraction_strategy := extraction_strategy;
     call_chunking_strategy := chunking_strategy;
     call_bypass_cache := bypass_cache req;
     call_css_selector := css_selector req;
     call_verbose := verbose req |}.

(** The list comprehension of lines 118-131, from position [i] on: for
    each URL, in order, the engine singleton is fetched and one job is
    handed to the pool. *)
Fixpoint submit_jobs (i : nat) (req : CrawlRequest)
    (extraction_strategy chunking_strategy : Strategy)
    (us : list string) : M (list Future) :=
  match us with
  | [] => ret []
  | url :: rest =>
      crawler ← get_crawler;
      let call := job_call req extraction_strategy chunking_strategy url in
      modify (add_event (EvSubmit i call));;
      futures ← submit_jobs (S i) req extraction_strategy
                  chunking_strategy rest;
      ret (crawler i call :: futures)
  end.

(** The first exception met when the futures finish in the order
    [order] (a list of positions). *)
Fixpoint first_raised (order : list nat) (futures : list Future)
  : option exn :=
  match order with
  | [] => None
  | i :: rest =>
      match futures !! i with
      | Some (inl e) => Some e
      | _ => first_raised rest futures
      end
  end.

Definition future_result (f : Future) : option CrawlResult :=
  match f with inr r => Some r | inl _ => None end.

(** [await asyncio.gather] over the futures, without [return_exceptions]: the
    first exception to arrive is raised in the awaiting handler;
    otherwise, once every future is done, the results are read off the
    futures in the order they were passed. *)
Definition gather (order : list nat) (futures : list Future)
  : M (list CrawlResult) :=
  match first_raised order futures with
  | Some e => raise e
  | None => ret (omap future_result futures)
  end.

(** *** Shaping the reply (lines 134-139) *)

(** Python's truth value of an [Optional[bool]]. *)
Definition truthy (o : option bool) : bool := default false o.

Definition shape_results (include_raw : option bool)
    (rs : list CrawlResult) : list CrawlResult :=
  if negb (truthy include_raw) then set_html None <$> rs else rs.

(** *** The handler (lines 97-142) *)

(** [mapping['verbose'] = True] on an [Optional[dict]] field. *)
Definition setitem (o : option dict) (k : string) (v : pyval) : M dict :=
  match o with
  | Some d => ret (<[k := v]> d)
  | None =>
      raise (TypeError "'NoneType' object does not support item assignment")
  end.

(** Unpacking a mapping as keyword arguments at a call site. *)
Definition unpack (o : option dict) : M dict :=
  match o with
  | Some d => ret d
  | None => raise (TypeError "argument after ** must be a mapping")
  end.

Definition update_request (f : CrawlRequest → CrawlRequest) : M unit :=
  modify (λ s, set_crawl_request (f (crawl_request s)) s).

(** The call [import_strategy(module_name, class_name, ...)] of lines 111
    and 112, with the mapping unpacked after the two positional
    arguments. *)
Definition call_import_strategy (module_name : string)
    (class_name : option string) (mapping : option dict) : M Strategy :=
  kwargs ← unpack mapping;
  if collides kwargs
  then raise (TypeError "import_strategy() got multiple values for argument")
  else import_strategy module_name class_name kwargs.

(** The body of the [try] block, lines 107-139.  [order] is the order in
    which the jobs of this request finish. *)
Definition crawl_body (order : list nat) : M Reply :=
  req ← gets crawl_request;
  d ← setitem (extraction_strategy_args req) "verbose" (VBool true);
  update_request (set_extraction_strategy_args (Some d));;
  req ← gets crawl_request;
  d ← setitem (chunking_strategy_args req) "verbose" (VBool true);
  update_request (set_chunking_strategy_args (Some d));;
  req ← gets crawl_request;
  extraction_strategy ←
    call_import_strategy "crawl4ai.extraction_strategy"
      (extraction_strategy req) (extraction_strategy_args req);
  req ← gets crawl_request;
  chunking_strategy ←
    call_import_strategy "crawl4ai.chunking_strategy"
      (chunking_strategy req) (chunking_strategy_args req);
  req ← gets crawl_request;
  futures ← submit_jobs 0 req extraction_strategy chunking_strategy
              (urls req);
  rs ← gather order futures;
  req ← gets crawl_request;
  ret {| results :=
           CrawlResult_dict <$> shape_results (include_raw_html req) rs |}.

(** Lines 101-104. *)
Definition acquire_slot : M unit :=
  c ← gets current_requests;
  c' ← lift (try_admit c);
  modify (set_current_requests c').

(** Lines 141-142. *)
Definition release_slot : M unit :=
  c ← gets current_requests;
  modify (set_current_requests (release c)).

Definition crawl_urls (order : list nat) : M Reply :=
  acquire_slot;;
  try_finally (crawl_body order) release_slot.

End Server.

Arguments EngineCall : clear implicits.
Arguments Event : clear implicits.
Arguments State : clear implicits.
Arguments PyModule : clear implicits.
Arguments PyCallable : clear implicits.
Arguments Crawler : clear implicits.

(** ** The server as a state machine

    Handlers of different requests interleave; the counter is the only
    state they share.  A handler that has arrived runs the first critical
    section and is then either in flight or finished (rejected); a handler
    in flight eventually leaves its [try] block, by whatever path, and runs
    the second critical section. *)

Inductive Phase : Type := Arrived | InFlight | Finished.

Record System : Type := mkSystem {
  counter : Z;
  handlers : list Phase
}.

Inductive step : System → System → Prop :=
| step_arrive sys :
    step sys {| counter := counter sys;
                handlers := handlers sys ++ [Arrived] |}
| step_admit sys i c' :
    handlers sys !! i = Some Arrived →
    try_admit (counter sys) = inr c' →
    step sys {| counter := c';
                handlers := <[i := InFlight]> (handlers sys) |}
| step_reject sys i e :
    handlers sys !! i = Some Arrived →
    try_admit (counter sys) = inl e →
    step sys {| counter := counter sys;
                handlers := <[i := Finished]> (handlers sys) |}
| step_release sys i :
    handlers sys !! i = Some InFlight →
    step sys {| counter := release (counter sys);
                handlers := <[i := Finished]> (handlers sys) |}.

Definition initial : System := {| counter := 0; handlers := [] |}.

Definition reachable (sys : System) : Prop := rtc step initial sys.

(** The number of handlers between their two critical sections. *)
Fixpoint in_flight (hs : list Phase) : Z :=
  match hs with
  | [] => 0
  | InFlight :: hs' => 1 + in_flight hs'
  | _ :: hs' => in_flight hs'
  end.

(** ** Vocabulary of the properties *)

Section Vocabulary.

Context {Strategy : Type}.
Context (import_module : string → option (PyModule Strategy)).

(** [preserves proj m]: running [m] from any state, whatever its outcome,
    leaves the component [proj] of the state as it was. *)
Definition preserves {A B} (proj : State Strategy → B) (m : M A) : Prop :=
  ∀ s, proj (m s).2 = proj s.

(** The mapping after [mapping['verbose'] = True]. *)
Definition with_verbose (d : dict) : dict := <["verbose" := VBool true]> d.

(** The name [class_name] has no implementation in the namespace
    [module_name]: the module has no such attribute (or there is no such
    module). *)
Definition unregistered (module_name class_name : string) : Prop :=
  match import_module module_name with
  | Some m => m class_name = None
  | None => True
  end.

(** The name is registered: the module exists and has the attribute. *)
Definition registered (module_name class_name : string)
    (c : PyCallable Strategy) : Prop :=
  ∃ m, import_module module_name = Some m ∧ m class_name = Some c.

(** The name and the argument mapping of a request resolve to the strategy
    [h]: both are present, the mapping has no key named like a parameter of
    the resolver, the name is registered, and its constructor, called with
    the mapping after line 108 (or 109), returns [h]. *)
Definition resolves (module_name : string) (class_name : option string)
    (args : option dict) (h : Strategy) : Prop :=
  ∃ d n c,
    args = Some d ∧ collides d = false ∧ class_name = Some n ∧
    registered module_name n c ∧ c (with_verbose d) = inr h.

(** What the resolver's [except] clauses make of an exception raised by a
    constructor. *)
Definition surfaced (module_name class_name : string) (e : exn) : exn :=
  match e with
  | ImportError _ =>
      HTTPException 400 ("Module " +:+ module_name +:+ " not found.")
  | AttributeError _ =>
      HTTPException 400
        ("Class " +:+ class_name +:+ " not found in " +:+ module_name
         +:+ ".")
  | _ => e
  end.

(** The request object after lines 108 and 109 have both run. *)
Definition marked (req : CrawlRequest) : CrawlRequest :=
  set_chunking_strategy_args (with_verbose <$> chunking_strategy_args req)
    (set_extraction_strategy_args
       (with_verbose <$> extraction_strategy_args req) req).


(** The calls made by a request that reaches the join. *)
Definition dispatch_trace (req : CrawlRequest) (da dc : dict)
    (es cs : Strategy) : list (Event Strategy) :=
  [EvConstruct "crawl4ai.extraction_strategy" (extraction_strategy req)
     (with_verbose da);
   EvConstruct "crawl4ai.chunking_strategy" (chunking_strategy req)
     (with_verbose dc)] ++
  imap (λ i url, EvSubmit i (job_call req es cs url)) (urls req).

(** The strategy calls and the pool submissions recorded in a trace. *)
Definition constructed (t : list (Event Strategy))
  : list (string * option string * dict) :=
  omap (λ e, match e with
             | EvConstruct m c kw => Some (m, c, kw)
             | EvSubmit _ _ => None
             end) t.

Definition submitted (t : list (Event Strategy))
  : list (nat * EngineCall Strategy) :=
  omap (λ e, match e with
             | EvSubmit i call => Some (i, call)
             | EvConstruct _ _ _ => None
             end) t.

(** What lines 135-137 do to one result. *)
Definition shape_result (include_raw : option bool) (r : CrawlResult)
  : CrawlResult :=
  if negb (truthy include_raw) then set_html None r else r.

(** The jobs of a request: one engine call per URL, with its position. *)
Definition jobs_of (req : CrawlRequest) (es cs : Strategy)
  : list (nat * EngineCall Strategy) :=
  imap (λ i url, (i, job_call req es cs url)) (urls req).

(** The request names a strategy that is not registered, and resolution
    gets as far as that name: it is the extraction strategy, or it is the
    chunking strategy and the extraction strategy resolved; the mapping
    that goes with the name has no key named like a parameter of the
    resolver.  The last index lists the calls made before the name is
    looked up. *)
Inductive unresolved (req : CrawlRequest)
  : string → string → list (Event Strategy) → Prop :=
| unresolved_extraction n da :
    extraction_strategy req = Some n →
    extraction_strategy_args req = Some da →
    collides da = false →
    unregistered "crawl4ai.extraction_strategy" n →
    unresolved req "crawl4ai.extraction_strategy" n []
| unresolved_chunking n es da dc :
    resolves "crawl4ai.extraction_strategy" (extraction_strategy req)
      (extraction_strategy_args req) es →
    extraction_strategy_args req = Some da →
    chunking_strategy req = Some n →
    chunking_strategy_args req = Some dc →
    collides dc = false →
    unregistered "crawl4ai.chunking_strategy" n →
    unresolved req "crawl4ai.chunking_strategy" n
      [EvConstruct "crawl4ai.extraction_strategy" (extraction_strategy req)
         (with_verbose da)].

(** The request names a registered strategy whose constructor raises [e]
    on the request's arguments, and resolution gets as far as that call
    (the mapping has no key named like a parameter of the resolver).  The
    last index lists the calls made up to and including it. *)
Inductive construction_fails (req : CrawlRequest)
  : string → string → exn → list (Event Strategy) → Prop :=
| construction_fails_extraction n c da e :
    extraction_strategy req = Some n →
    extraction_strategy_args req = Some da →
    collides da = false →
    registered "crawl4ai.extraction_strategy" n c →
    c (with_verbose da) = inl e →
    construction_fails req "crawl4ai.extraction_strategy" n e
      [EvConstruct "crawl4ai.extraction_strategy" (Some n)
         (with_verbose da)]
| construction_fails_chunking n c es da dc e :
    resolves "crawl4ai.extraction_strategy" (extraction_strategy req)
      (extraction_strategy_args req) es →
    extraction_strategy_args req = Some da →
    chunking_strategy req = Some n →
    chunking_strategy_args req = Some dc →
    collides dc = false →
    registered "crawl4ai.chunking_strategy" n c →
    c (with_verbose dc) = inl e →
    construction_fails req "crawl4ai.chunking_strategy" n e
      [EvConstruct "crawl4ai.extraction_strategy" (extraction_strategy req)
         (with_verbose da);
       EvConstruct "crawl4ai.chunking_strategy" (Some n)
         (with_verbose dc)].

(** A constructor call as line 111 or line 112 makes it: the module and
    the name are the request's, and the keyword arguments are the
    caller's mapping with [verbose] set to [True]. *)
Definition call_of_request (req : CrawlRequest)
    (call : string * option string * dict) : Prop :=
  let '(module_name, class_name, kwargs) := call in
  (module_name = "crawl4ai.extraction_strategy" ∧
   class_name = extraction_strategy req ∧
   ∃ d, extraction_strategy_args req = Some d ∧
        kwargs = <["verbose" := VBool true]> d) ∨
  (module_name = "crawl4ai.chunking_strategy" ∧
   class_name = chunking_strategy req ∧
   ∃ d, chunking_strategy_args req = Some d ∧
        kwargs = <["verbose" := VBool true]> d).

(** The state-machine invariant: the counter counts the handlers in
    flight and stays within the capacity. *)
Definition admission_invariant (sys : System) : Prop :=
  counter sys = in_flight (handlers sys) ∧
  0 ≤ counter sys ≤ MAX_CONCURRENT_REQUESTS.

End Vocabulary.

(** ** A concrete deployment, for running the handler *)

Module Demo.

(** A strategy object remembers its class and the keyword arguments it
    was built with. *)
Definition strategy : Type := string * dict.

Definition accepts (allowed : gset string) (name : string)
  : PyCallable strategy :=
  λ kwargs,
    if bool_decide (dom kwargs ⊆ allowed)
    then inr (name, kwargs)
    else inl (TypeError "__init__() got an unexpected keyword argument").

(** A constructor that cannot do without an API token. *)
Definition LLMExtractionStrategy : PyCallable strategy :=
  λ kwargs,
    if bool_decide (is_Some (kwargs !! "api_token"))
    then accepts {["verbose"; "provider"; "api_token"]}
           "LLMExtractionStrategy" kwargs
    else inl (OtherError "ValueError" "API token must be provided").

Definition extraction_module : PyModule strategy :=
  λ name,
    if bool_decide (name = "NoExtractionStrategy")
    then Some (accepts {["verbose"]} name)
    else if bool_decide (name = "LLMExtractionStrategy")
    then Some LLMExtractionStrategy
    else None.

Definition chunking_module : PyModule strategy :=
  λ name,
    if bool_decide (name = "RegexChunking")
    then Some (accepts {["verbose"; "patterns"]} name)
    else None.

Definition import_module (module_name : string)
  : option (PyModule strategy) :=
  if bool_decide (module_name = "crawl4ai.extraction_strategy")
  then Some extraction_module
  else if bool_decide (module_name = "crawl4ai.chunking_strategy")
  then Some chunking_module
  else None.

(** An engine that cannot reach one host, finds nothing on another and
    succeeds everywhere else. *)
Definition run : Crawler strategy :=
  λ _ call,
    if bool_decide (call_url call = "http://down.example")
    then inl (OtherError "Exception" "Failed to crawl")
    else if bool_decide (call_url call = "http://empty.example")
    then inr {| html := None; extracted_blocks := [];
                chunked_segments := []; success := false |}
    else inr {| html := Some "<html></html>";
                extracted_blocks := ["block"];
                chunked_segments := ["chunk"]; success := true |}.

Definition WebCrawler (verbose : bool) : exn + Crawler strategy :=
  inr run.

Definition start (c : Z) (req : CrawlRequest) : State strategy :=
  {| current_requests := c; crawl_request := req; trace := [] |}.

Definition handle (c : Z) (req : CrawlRequest) (order : list nat)
  : (exn + Reply) * State strategy :=
  crawl_urls import_module WebCrawler order (start c req).

(** A request with the given URLs, strategy selectors and verbosity, and
    the defaults elsewhere. *)
Definition request (us : list string)
    (extraction : string) (extraction_args : option dict)
    (chunking : string) (chunking_args : option dict)
    (v : bool) : CrawlRequest :=
  {| urls := us;
     include_raw_html := Some false;
     bypass_cache := false;
     extract_blocks := true;
     word_count_threshold := Some 5;
     extraction_strategy := Some extraction;
     extraction_strategy_args := extraction_args;
     chunking_strategy := Some chunking;
     chunking_strategy_args := chunking_args;
     css_selector := None;
     verbose := Some v |}.

Definition batch_ok : CrawlRequest :=
  CrawlRequest_default ["http://a.example"; "http://empty.example"].

Definition batch_down : CrawlRequest :=
  CrawlRequest_default
    ["http://a.example"; "http://down.example"; "http://b.example"].

Definition unknown_extraction : CrawlRequest :=
  request ["http://a.example"] "NoSuchStrategy" (Some ∅)
    "RegexChunking" (Some ∅) true.

Definition unknown_chunking : CrawlRequest :=
  request ["http://a.example"] "NoExtractionStrategy" (Some ∅)
    "NoSuchChunking" (Some ∅) true.

Definition bad_args : CrawlRequest :=
  request ["http://a.example"] "LLMExtractionStrategy"
    (Some {["provider" := VStr "openai"]}) "RegexChunking" (Some ∅) true.

Definition bad_args_unknown_chunking : CrawlRequest :=
  request ["http://a.example"] "LLMExtractionStrategy"
    (Some {["provider" := VStr "openai"]}) "NoSuchChunking" (Some ∅) true.

Definition null_args : CrawlRequest :=
  request ["http://a.example"] "NoExtractionStrategy" None
    "RegexChunking" (Some ∅) true.

Definition quiet : CrawlRequest :=
  request ["http://a.example"] "NoExtractionStrategy"
    (Some {["verbose" := VBool false]})
    "RegexChunking" (Some {["verbose" := VBool false]}) false.

(** The server after two requests arrived, both were admitted and the
    first has finished. *)
Definition one_left : System :=
  {| counter := 1; handlers := [Finished; InFlight] |}.

End Demo.


(** ** Requests served one after another *)

Section Service.

Context {Strategy : Type}.
Context (import_module : string → option (PyModule Strategy)).
Context (WebCrawler : bool → exn + Crawler Strategy).

(** The handler run on a freshly received request while the counter stands
    at [c]. *)
Definition receive (c : Z) (req : CrawlRequest) (order : list nat)
  : (exn + Reply) * State Strategy :=
  crawl_urls import_module WebCrawler order
    {| current_requests := c; crawl_request := req; trace := [] |}.

(** The handler run to completion on each request of a list in turn, the
    counter passed from one run to the next: the outcomes, and the counter
    at the end. *)
Fixpoint serve (c : Z) (reqs : list (CrawlRequest * list nat))
  : list (exn + Reply) * Z :=
  match reqs with
  | [] => ([], c)
  | (req, order) :: rest =>
      let out := receive c req order in
      let (outs, c') := serve (current_requests out.2) rest in
      (out.1 :: outs, c')
  end.

End Service.

(** [extract_blocks = b] on a request. *)
Definition set_extract_blocks (b : bool) (r : CrawlRequest) : CrawlRequest :=
  {| urls := urls r;
     include_raw_html := include_raw_html r;
     bypass_cache := bypass_cache r;
     extract_blocks := b;
     word_count_threshold := word_count_threshold r;
     extraction_strategy := extraction_strategy r;
     extraction_strategy_args := extraction_strategy_args r;
     chunking_strategy := chunking_strategy r;
     chunking_strategy_args := chunking_strategy_args r;
     css_selector := css_selector r;
     verbose := verbose r |}.

(** ** The index page (lines 62-72) *)

(** [s.endswith(suffix)] *)
Definition endswith (s suffix : string) : bool :=
  (String.length suffix <=? String.length s)%nat &&
  String.eqb
    (String.substring (String.length s - String.length suffix)
       (String.length suffix) s)
    suffix.

(** The slice [s[:-k]]: the string without its last [k] characters, empty
    when it has no more than [k]. *)
Definition drop_last (k : nat) (s : string) : string :=
  String.substring 0 (String.length s - k) s.

(** A value of the template context: the request object, or the text of a
    partial. *)
Inductive ctxval : Type :=
| CtxRequest
| CtxText (text : string).

Section Pages.

(** [os.listdir(partials_dir)]: the names in the directory, or the
    exception it raises. *)
Context (listdir : exn + list string).

(** Opening the file of that name in the directory and reading it. *)
Context (read_file : string → exn + string).

(** The loop of lines 67-70, from a dictionary [partials] on. *)
Fixpoint load_partials (partials : gmap string string)
    (filenames : list string) : exn + gmap string string :=
  match filenames with
  | [] => inr partials
  | filename :: rest =>
      if endswith filename ".html"
      then match read_file filename with
           | inl e => inl e
           | inr content =>
               load_partials (<[drop_last 5 filename := content]> partials)
                 rest
           end
      else load_partials partials rest
  end.

(** The handler: the template's name and the context it is rendered
    with.  In the dictionary display of line 72 the partials come after the
    request and win over it. *)
Definition read_index : exn + string * gmap string ctxval :=
  match listdir with
  | inl e => inl e
  | inr filenames =>
      match load_partials ∅ filenames with
      | inl e => inl e
      | inr partials =>
          inr ("index.html",
               (CtxText <$> partials) ∪ {["request" := CtxRequest]})
      end
  end.

End Pages.

(** A directory of partials: two pages, a stray text file, a directory
    that happens to be called like a page. *)
Module Site.

Definition files : list string :=
  ["header.html"; "notes.txt"; "footer.html"].

Definition files_with_request : list string :=
  ["header.html"; "request.html"].

Definition files_with_folder : list string :=
  ["header.html"; "old.html"; "footer.html"].

Definition read_file (filename : string) : exn + string :=
  if bool_decide (filename = "header.html") then inr "<header/>"
  else if bool_decide (filename = "footer.html") then inr "<footer/>"
  else if bool_decide (filename = "request.html") then inr "<form/>"
  else inl (OtherError "IsADirectoryError" filename).

End Site.

(** Further deployments and requests: a strategy class whose constructor
    trips over a missing attribute, an engine that cannot be started, and
    requests with a null or an empty field. *)
Module Lab.

Definition BrokenStrategy : PyCallable Demo.strategy :=
  λ _, inl (AttributeError "'NoneType' object has no attribute 'lower'").

Definition extraction_module : PyModule Demo.strategy :=
  λ name,
    if bool_decide (name = "BrokenStrategy") then Some BrokenStrategy
    else Demo.extraction_module name.

Definition import_module (module_name : string)
  : option (PyModule Demo.strategy) :=
  if bool_decide (module_name = "crawl4ai.extraction_strategy")
  then Some extraction_module
  else Demo.import_module module_name.

Definition no_engine (verbose : bool) : exn + Crawler Demo.strategy :=
  inl (OtherError "WebDriverException" "chromedriver not found").

Definition broken : CrawlRequest :=
  Demo.request ["http://a.example"] "BrokenStrategy" (Some ∅)
    "RegexChunking" (Some ∅) true.

Definition unnamed : CrawlRequest :=
  {| urls := ["http://a.example"];
     include_raw_html := Some false;
     bypass_cache := false;
     extract_blocks := true;
     word_count_threshold := Some 5;
     extraction_strategy := None;
     extraction_strategy_args := Some ∅;
     chunking_strategy := Some "RegexChunking";
     chunking_strategy_args := Some ∅;
     css_selector := None;
     verbose := Some true |}.

Definition no_chunking_args : CrawlRequest :=
  Demo.request ["http://a.example"] "NoExtractionStrategy" (Some ∅)
    "RegexChunking" None true.

Definition no_urls : CrawlRequest := CrawlRequest_default [].

(** A request whose extraction mapping names the class a second time, and
    one whose chunking mapping names the module. *)
Definition colliding : CrawlRequest :=
  Demo.request ["http://a.example"] "NoExtractionStrategy"
    (Some {["class_name" := VStr "NoExtractionStrategy"]})
    "RegexChunking" (Some ∅) true.

Definition colliding_chunking : CrawlRequest :=
  Demo.request ["http://a.example"] "NoExtractionStrategy" (Some ∅)
    "RegexChunking"
    (Some {["module_name" := VStr "crawl4ai.chunking_strategy"]}) true.

(** The server after two requests arrived, were admitted and finished. *)
Definition all_done : System :=
  {| counter := 0; handlers := [Finished; Finished] |}.

End Lab.

(** * Properties *)

Section Properties.

Context {Strategy : Type}.
Context (import_module : string → option (PyModule Strategy)).
Context (WebCrawler : bool → exn + Crawler Strategy).

Implicit Types (s : State Strategy) (req : CrawlRequest)
  (es cs : Strategy) (da dc : dict).

Lemma preserves_ret {A B} (proj : State Strategy → B) (a : A) :
  preserves proj (ret a).
Proof. by intros s. Qed.

Lemma preserves_raise {A B} (proj : State Strategy → B) (e : exn) :
  preserves proj (raise (A := A) e).
Proof. by intros s. Qed.

Lemma preserves_lift {A B} (proj : State Strategy → B) (r : exn + A) :
  preserves proj (lift r).
Proof. by intros s. Qed.

Lemma preserves_gets {A B} (proj : State Strategy → B)
    (f : State Strategy → A) :
  preserves proj (gets f).
Proof. by intros s. Qed.

Lemma preserves_modify {B} (proj : State Strategy → B)
    (f : State Strategy → State Strategy) :
  (∀ s, proj (f s) = proj s) → preserves proj (modify f).
Proof. intros Hf s. apply Hf. Qed.

Lemma preserves_bind {A A' B} (proj : State Strategy → B)
    (m : M A) (k : A → M A') :
  preserves proj m → (∀ a, preserves proj (k a)) →
  preserves proj (bind m k).
Proof.
  intros Hm Hk s. unfold bind. specialize (Hm s).
  destruct (m s) as [[e|a] s1]; simpl in *; [done|].
  by rewrite Hk.
Qed.

Lemma preserves_try_except {A B} (proj : State Strategy → B)
    (m : M A) (h : exn → M A) :
  preserves proj m → (∀ e, preserves proj (h e)) →
  preserves proj (try_except m h).
Proof.
  intros Hm Hh s. unfold try_except. specialize (Hm s).
  destruct (m s) as [[e|a] s1]; simpl in *; [|done].
  by rewrite Hh.
Qed.

Ltac frame_step :=
  lazymatch goal with
  | |- preserves _ (mbind _ _) => apply preserves_bind; [|intros ?]
  | |- preserves _ (bind _ _) => apply preserves_bind; [|intros ?]
  | |- preserves _ (ret _) => apply preserves_ret
  | |- preserves _ (raise _) => apply preserves_raise
  | |- preserves _ (lift _) => apply preserves_lift
  | |- preserves _ (gets _) => apply preserves_gets
  | |- preserves _ (modify _) => apply preserves_modify; by intros []
  | |- preserves _ (try_except _ _) =>
      apply preserves_try_except; [|intros []]
  | |- preserves _ (match ?x with _ => _ end) => destruct x
  end.

Ltac frame := repeat frame_step.

(** Neither the counter nor the request object is touched by the
    resolver, the fan-out or the join. *)
Lemma import_strategy_preserves_counter module_name class_name kwargs :
  preserves current_requests
    (import_strategy import_module module_name class_name kwargs).
Proof. unfold import_strategy, getattr, construct. frame. Qed.

Lemma import_strategy_preserves_request module_name class_name kwargs :
  preserves crawl_request
    (import_strategy import_module module_name class_name kwargs).
Proof. unfold import_strategy, getattr, construct. frame. Qed.

Lemma submit_jobs_preserves_counter i req es cs us :
  preserves current_requests (submit_jobs WebCrawler i req es cs us).
Proof.
  revert i. induction us as [|url rest IH]; intros i; simpl.
  - frame.
  - unfold get_crawler. frame. apply IH.
Qed.

Lemma submit_jobs_preserves_request i req es cs us :
  preserves crawl_request (submit_jobs WebCrawler i req es cs us).
Proof.
  revert i. induction us as [|url rest IH]; intros i; simpl.
  - frame.
  - unfold get_crawler. frame. apply IH.
Qed.

Lemma gather_preserves {B} (proj : State Strategy → B) order futures :
  preserves proj (gather order futures).
Proof. unfold gather. frame. Qed.

Lemma crawl_body_preserves_counter order :
  preserves current_requests (crawl_body import_module WebCrawler order).
Proof.
  unfold crawl_body, call_import_strategy, setitem, unpack, update_request.
  frame;
    auto using import_strategy_preserves_counter,
      submit_jobs_preserves_counter, gather_preserves.
Qed.


(** ** Running the resolver *)

(** The resolver's outcomes, path by path. *)
Lemma import_strategy_run module_name class_name kwargs s :
  import_strategy import_module module_name class_name kwargs s =
  match import_module module_name with
  | None =>
      (inl (HTTPException 400 ("Module " +:+ module_name +:+ " not found.")),
       s)
  | Some m =>
      match class_name with
      | None => (inl (TypeError "attribute name must be string"), s)
      | Some n =>
          match m n with
          | None =>
              (inl (HTTPException 400
                      ("Class " +:+ n +:+ " not found in "
                       +:+ module_name +:+ ".")), s)
          | Some c =>
              (match c kwargs with
               | inr h => inr h
               | inl (ImportError _) =>
                   inl (HTTPException 400
                          ("Module " +:+ module_name +:+ " not found."))
               | inl (AttributeError _) =>
                   inl (HTTPException 400
                          ("Class " +:+ n +:+ " not found in "
                           +:+ module_name +:+ "."))
               | inl e => inl e
               end,
               add_event (EvConstruct module_name class_name kwargs) s)
          end
      end
  end.
Proof.
  unfold import_strategy, try_except, getattr, construct.
  unfold mbind, M_bind, bind, ret, raise, modify, lift.
  destruct (import_module module_name) as [m|]; [|done].
  destruct class_name as [n|]; [|done].
  destruct (m n) as [c|]; [|done].
  by destruct (c kwargs) as [[]|].
Qed.

(** An unregistered name is a 400, and nothing is called. *)
Lemma import_strategy_unregistered module_name n kwargs s :
  unregistered import_module module_name n →
  ∃ detail,
    import_strategy import_module module_name (Some n) kwargs s =
    (inl (HTTPException 400 detail), s).
Proof.
  unfold unregistered. intros Hun. rewrite import_strategy_run.
  destruct (import_module module_name) as [m|]; [|by eexists].
  rewrite Hun. by eexists.
Qed.

(** ** Running the fan-out *)

Lemma submit_jobs_cons i req es cs url rest s :
  submit_jobs WebCrawler i req es cs (url :: rest) s =
  match WebCrawler true with
  | inl e => (inl e, s)
  | inr crawler =>
      match submit_jobs WebCrawler (S i) req es cs rest
              (add_event (EvSubmit i (job_call req es cs url)) s) with
      | (inl e, s') => (inl e, s')
      | (inr futures, s') =>
          (inr (crawler i (job_call req es cs url) :: futures), s')
      end
  end.
Proof.
  simpl. unfold get_crawler, mbind, M_bind, bind, lift, modify, ret.
  by destruct (WebCrawler true).
Qed.

(** With the engine available every URL gets its job, in order. *)
Lemma submit_jobs_run crawler i req es cs us s :
  WebCrawler true = inr crawler →
  submit_jobs WebCrawler i req es cs us s =
  (inr (imap (λ k url, crawler (i + k)%nat (job_call req es cs url)) us),
   {| current_requests := current_requests s;
      crawl_request := crawl_request s;
      trace := trace s ++
               imap (λ k url, EvSubmit (i + k)%nat (job_call req es cs url))
                 us |}).
Proof.
  intros Hc. revert i s. induction us as [|url rest IH]; intros i s.
  - simpl. rewrite app_nil_r. by destruct s.
  - rewrite submit_jobs_cons, Hc, IH. simpl.
    rewrite Nat.add_0_r, <-app_assoc. simpl.
    rewrite (imap_ext
               (λ k url', crawler (S (i + k)) (job_call req es cs url'))
               ((λ k url', crawler (i + k)%nat (job_call req es cs url'))
                ∘ S) rest)
      by (intros; simpl; by rewrite Nat.add_succ_r).
    rewrite (imap_ext
               (λ k url', EvSubmit (S (i + k)) (job_call req es cs url'))
               ((λ k url', EvSubmit (i + k)%nat (job_call req es cs url'))
                ∘ S) rest)
      by (intros; simpl; by rewrite Nat.add_succ_r).
    done.
Qed.

(** ** Running the join *)

Lemma first_raised_None order (futures : list Future) :
  first_raised order futures = None ↔
  ∀ i e, i ∈ order → futures !! i ≠ Some (inl e).
Proof.
  induction order as [|j rest IH]; simpl.
  - split; [|done]. intros _ i e Hi. by apply elem_of_nil in Hi.
  - destruct (futures !! j) as [[e|r]|] eqn:Hj.
    + split; [done|]. intros H. by destruct (H j e); [left|].
    + rewrite IH. split.
      * intros H i e [->|Hi]%elem_of_cons; [congruence|by apply H].
      * intros H i e Hi. apply H. by right.
    + rewrite IH. split.
      * intros H i e [->|Hi]%elem_of_cons; [congruence|by apply H].
      * intros H i e Hi. apply H. by right.
Qed.

Lemma first_raised_Some order (futures : list Future) e :
  first_raised order futures = Some e →
  ∃ i, i ∈ order ∧ futures !! i = Some (inl e).
Proof.
  induction order as [|j rest IH]; simpl; [done|].
  destruct (futures !! j) as [[e'|r]|] eqn:Hj.
  - intros [= ->]. exists j. split; [by left|done].
  - intros (i & Hi & H)%IH. exists i. split; [by right|done].
  - intros (i & Hi & H)%IH. exists i. split; [by right|done].
Qed.


Lemma complete_order_elem order n i :
  order ≡ₚ seq 0 n → (i < n)%nat → i ∈ order.
Proof. intros -> Hi. apply elem_of_seq. lia. Qed.

(** When no future holds an exception, reading the results off the
    futures loses nothing. *)
Lemma futures_all_returned (futures : list Future) :
  (∀ i e, futures !! i ≠ Some (inl e)) →
  futures = inr <$> omap future_result futures.
Proof.
  induction futures as [|[e|r] rest IH]; intros H; [done|..].
  - by destruct (H 0%nat e).
  - simpl. f_equal. apply IH. intros i e. apply (H (S i) e).
Qed.

Lemma gather_complete order (futures : list Future) :
  order ≡ₚ seq 0 (length futures) →
  first_raised order futures = None →
  futures = inr <$> omap future_result futures.
Proof.
  intros Hperm Hnone. apply futures_all_returned. intros i e Hi.
  eapply first_raised_None; [done| |done].
  eapply complete_order_elem; [done|]. by eapply lookup_lt_Some.
Qed.

Lemma gather_returned order (rs : list CrawlResult) :
  first_raised order (inr <$> rs) = None ∧
  omap future_result (inr <$> rs) = rs.
Proof.
  split.
  - apply first_raised_None. intros i e _.
    rewrite list_lookup_fmap. by destruct (rs !! i).
  - induction rs as [|r rs IH]; [done|]. simpl. by f_equal.
Qed.

(** ** Running the body *)

(** Line 108 (or 109) adds no key that collides. *)
Lemma collides_with_verbose (d : dict) :
  collides (with_verbose d) = collides d.
Proof.
  unfold collides, with_verbose. by rewrite !lookup_insert_ne by done.
Qed.

(** The body of the [try] block, path by path. *)
Lemma crawl_body_run order s :
  crawl_body import_module WebCrawler order s =
  let req := crawl_request s in
  match extraction_strategy_args req with
  | None =>
      (inl (TypeError "'NoneType' object does not support item assignment"),
       s)
  | Some da =>
    let req1 := set_extraction_strategy_args (Some (with_verbose da)) req in
    match chunking_strategy_args req with
    | None =>
        (inl (TypeError
                "'NoneType' object does not support item assignment"),
         set_crawl_request req1 s)
    | Some dc =>
      let req2 := set_chunking_strategy_args (Some (with_verbose dc)) req1 in
      if collides da
      then (inl (TypeError
                   "import_strategy() got multiple values for argument"),
            set_crawl_request req2 s)
      else
      match import_strategy import_module "crawl4ai.extraction_strategy"
              (extraction_strategy req) (with_verbose da)
              (set_crawl_request req2 s) with
      | (inl e, s3) => (inl e, s3)
      | (inr es, s3) =>
        if collides dc
        then (inl (TypeError
                     "import_strategy() got multiple values for argument"),
              s3)
        else
        match import_strategy import_module "crawl4ai.chunking_strategy"
                (chunking_strategy req) (with_verbose dc) s3 with
        | (inl e, s4) => (inl e, s4)
        | (inr cs, s4) =>
          match submit_jobs WebCrawler 0 req2 es cs (urls req) s4 with
          | (inl e, s5) => (inl e, s5)
          | (inr futures, s5) =>
            match first_raised order futures with
            | Some e => (inl e, s5)
            | None =>
                (inr {| results :=
                          CrawlResult_dict <$>
                            shape_results (include_raw_html req)
                              (omap future_result futures) |}, s5)
            end
          end
        end
      end
    end
  end.
Proof.
  unfold crawl_body, call_import_strategy, setitem, unpack, update_request,
    gather.
  unfold mbind, M_bind, bind, ret, raise, gets, modify, set_crawl_request.
  cbn [crawl_request current_requests trace].
  destruct (extraction_strategy_args (crawl_request s)) as [da|]; [|done].
  cbn. destruct (chunking_strategy_args (crawl_request s)) as [dc|]; [|done].
  cbn. fold (with_verbose da). fold (with_verbose dc).
  rewrite (collides_with_verbose da).
  destruct (collides da); [done|].
  match goal with
  | |- context [import_strategy _ ?m ?c ?k ?s2] =>
      pose proof (import_strategy_preserves_request m c k s2) as H3;
      destruct (import_strategy import_module m c k s2) as [[e|es] s3]
  end; [done|].
  cbn in H3. rewrite H3. cbn. fold (with_verbose dc).
  rewrite (collides_with_verbose dc).
  destruct (collides dc); [done|].
  match goal with
  | |- context [import_strategy _ ?m ?c ?k s3] =>
      pose proof (import_strategy_preserves_request m c k s3) as H4;
      destruct (import_strategy import_module m c k s3) as [[e|cs] s4]
  end; [done|].
  cbn in H4. rewrite H4, H3. cbn.
  match goal with
  | |- context [submit_jobs _ _ ?r _ _ ?u s4] =>
      pose proof (submit_jobs_preserves_request 0 r es cs u s4) as H5;
      destruct (submit_jobs WebCrawler 0 r es cs u s4)
        as [[e|futures] s5]
  end; [done|].
  destruct (first_raised order futures); [done|].
  cbn in H5. by rewrite H5, H4, H3.
Qed.

(** ** Running the handler *)

Lemma crawl_urls_run order s :
  crawl_urls import_module WebCrawler order s =
  if bool_decide (MAX_CONCURRENT_REQUESTS ≤ current_requests s)
  then (inl (HTTPException 429
               "Too many requests - please try again later."), s)
  else
    let out := crawl_body import_module WebCrawler order
                 (set_current_requests (current_requests s + 1) s) in
    (out.1, set_current_requests (release (current_requests out.2)) out.2).
Proof.
  unfold crawl_urls, acquire_slot, release_slot, try_finally, try_admit.
  unfold mbind, M_bind, bind, gets, lift, modify.
  case_bool_decide; [done|].
  by destruct (crawl_body _ _ _ _) as [r s1].
Qed.

Lemma import_strategy_resolves module_name class_name args h :
  resolves import_module module_name class_name args h →
  ∃ d, args = Some d ∧ collides d = false ∧
    ∀ s, import_strategy import_module module_name class_name
           (with_verbose d) s =
         (inr h,
          add_event (EvConstruct module_name class_name (with_verbose d)) s).
Proof.
  intros (d & n & c & -> & Hfree & -> & (m & Hm & Hn) & Hc).
  exists d. split; [done|]. split; [done|]. intros s.
  by rewrite import_strategy_run, Hm, Hn, Hc.
Qed.


(** ** Reading a reply backwards *)

Lemma import_strategy_inv module_name class_name kwargs s h s' :
  import_strategy import_module module_name class_name kwargs s
    = (inr h, s') →
  (∃ n c, class_name = Some n ∧
          registered import_module module_name n c ∧ c kwargs = inr h) ∧
  s' = add_event (EvConstruct module_name class_name kwargs) s.
Proof.
  rewrite import_strategy_run.
  destruct (import_module module_name) as [m|] eqn:Hm; [|done].
  destruct class_name as [n|]; [|done].
  destruct (m n) as [c|] eqn:Hn; [|done].
  destruct (c kwargs) as [[]|h'] eqn:Hc; intros [= <- <-].
  split; [|done]. exists n, c. by repeat split; [exists m|].
Qed.

Lemma submit_jobs_inv i req es cs us s futures s' :
  submit_jobs WebCrawler i req es cs us s = (inr futures, s') →
  s' = {| current_requests := current_requests s;
          crawl_request := crawl_request s;
          trace := trace s ++
                   imap (λ k url,
                           EvSubmit (i + k)%nat (job_call req es cs url))
                     us |} ∧
  length futures = length us ∧
  ∀ k url, us !! k = Some url →
    ∃ crawler, WebCrawler true = inr crawler ∧
               futures !! k
               = Some (crawler (i + k)%nat (job_call req es cs url)).
Proof.
  destruct (WebCrawler true) as [e|crawler] eqn:Hw.
  - destruct us as [|url rest].
    + simpl. intros [= <- <-]. rewrite app_nil_r.
      by destruct s.
    + by rewrite submit_jobs_cons, Hw.
  - rewrite (submit_jobs_run crawler) by done. intros [= <- <-].
    split; [done|]. split; [by rewrite length_imap|].
    intros k url Hk. exists crawler. split; [done|].
    by rewrite list_lookup_imap, Hk.
Qed.

(** Every reply comes from a request that was admitted, whose two
    strategies resolved, and all of whose jobs returned a result; it holds
    those results, shaped and serialised, in input order. *)
Lemma crawl_urls_reply_inv order s reply s' :
  let req := crawl_request s in
  order ≡ₚ seq 0 (length (urls req)) →
  crawl_urls import_module WebCrawler order s = (inr reply, s') →
  ∃ es cs da dc rs,
    current_requests s < MAX_CONCURRENT_REQUESTS ∧
    resolves import_module "crawl4ai.extraction_strategy"
      (extraction_strategy req) (extraction_strategy_args req) es ∧
    resolves import_module "crawl4ai.chunking_strategy"
      (chunking_strategy req) (chunking_strategy_args req) cs ∧
    extraction_strategy_args req = Some da ∧
    chunking_strategy_args req = Some dc ∧
    length rs = length (urls req) ∧
    (∀ i url, urls req !! i = Some url →
       ∃ crawler r,
         WebCrawler true = inr crawler ∧
         crawler i (job_call req es cs url) = inr r ∧
         rs !! i = Some r) ∧
    reply = {| results := CrawlResult_dict <$>
                            shape_results (include_raw_html req) rs |} ∧
    s' = {| current_requests := current_requests s;
            crawl_request := marked req;
            trace := trace s ++ dispatch_trace req da dc es cs |}.
Proof.
  intros req Hperm. rewrite crawl_urls_run.
  case_bool_decide as Hcap; [done|].
  rewrite crawl_body_run. cbn [crawl_request set_current_requests].
  fold req.
  destruct (extraction_strategy_args req) as [da|] eqn:Hda; [|done].
  destruct (chunking_strategy_args req) as [dc|] eqn:Hdc; [|done].
  cbn zeta.
  destruct (collides da) eqn:Hfa; [done|].
  destruct (import_strategy _ "crawl4ai.extraction_strategy" _ _ _)
    as [[e|es] s3] eqn:H3; [done|].
  apply import_strategy_inv in H3 as [(ne & ce & Hne & Hre & Hce) ->].
  destruct (collides dc) eqn:Hfc; [done|].
  destruct (import_strategy _ "crawl4ai.chunking_strategy" _ _ _)
    as [[e|cs] s4] eqn:H4; [done|].
  apply import_strategy_inv in H4 as [(nc & cc & Hnc & Hrc & Hcc) ->].
  destruct (submit_jobs _ _ _ _ _ _ _) as [[e|futures] s5] eqn:H5; [done|].
  apply submit_jobs_inv in H5 as (-> & Hlen & Hfut).
  destruct (first_raised order futures) eqn:Hfirst; [done|].
  cbn. intros [= <- <-].
  rewrite <-Hlen in Hperm.
  pose proof (gather_complete _ _ Hperm Hfirst) as Hall.
  exists es, cs, da, dc, (omap future_result futures).
  split; [lia|].
  split; [by exists da, ne, ce|].
  split; [by exists dc, nc, cc|].
  do 2 (split; [done|]).
  split.
  { pose proof (f_equal length Hall) as Hl.
    rewrite length_fmap in Hl. congruence. }
  split.
  - intros i url Hi. destruct (Hfut i url Hi) as (crawler & Hw & Hlook).
    rewrite Hall, list_lookup_fmap in Hlook.
    destruct (omap future_result futures !! i) as [r|] eqn:Hr; [|done].
    exists crawler, r. split; [done|]. split; [|done].
    simpl in Hlook. injection Hlook as Hlook. symmetry. exact Hlook.
  - split; [done|].
    unfold marked, dispatch_trace, release, set_current_requests.
    rewrite Hda, Hdc. cbn. rewrite <-!app_assoc.
    by replace (current_requests s + 1 - 1) with (current_requests s)
      by lia.
Qed.

(** ** The admission slot *)

(** C1.  An admitted request (the counter was below the capacity when it
    arrived) runs the body of its [try] block with the counter one
    higher; whatever the body's outcome -- a reply, a resolution error, a
    failed job or any other exception -- the handler's outcome is that
    outcome, the state it leaves is the state the body left with the
    counter decremented once, and the counter is back at the value it had
    before admission. *)
Theorem crawl_urls_releases_slot order s :
  current_requests s < MAX_CONCURRENT_REQUESTS →
  let admitted := set_current_requests (current_requests s + 1) s in
  let out := crawl_body import_module WebCrawler order admitted in
  (crawl_urls import_module WebCrawler order s).1 = out.1 ∧
  current_requests out.2 = current_requests s + 1 ∧
  (crawl_urls import_module WebCrawler order s).2
    = set_current_requests (release (current_requests out.2)) out.2 ∧
  current_requests (crawl_urls import_module WebCrawler order s).2
    = current_requests s.
Proof.
  intros Hc admitted out.
  rewrite crawl_urls_run, bool_decide_eq_false_2 by lia.
  fold admitted out. cbn [fst snd].
  pose proof (crawl_body_preserves_counter order admitted) as Hframe.
  fold out in Hframe. cbn in Hframe.
  repeat split; [done|]. cbn. rewrite Hframe. unfold release. lia.
Qed.


(** ** The state machine *)

Lemma in_flight_nonneg hs : 0 ≤ in_flight hs.
Proof. induction hs as [|[] hs IH]; simpl; lia. Qed.

Lemma in_flight_app hs hs' :
  in_flight (hs ++ hs') = in_flight hs + in_flight hs'.
Proof. induction hs as [|[] hs IH]; simpl; lia. Qed.

(** Replacing the phase of one handler moves the count by the
    difference of the two phases. *)
Lemma in_flight_insert hs i p q :
  hs !! i = Some p →
  in_flight (<[i := q]> hs) = in_flight hs - in_flight [p] + in_flight [q].
Proof.
  revert i. induction hs as [|h hs IH]; intros i Hi; [done|].
  destruct i as [|i].
  - injection Hi as ->. destruct p, q; simpl; lia.
  - simpl in Hi. specialize (IH i Hi).
    destruct h; simpl in *; lia.
Qed.

Lemma step_invariant sys sys' :
  admission_invariant sys → step sys sys' → admission_invariant sys'.
Proof.
  unfold admission_invariant, try_admit, release.
  intros [Hcount Hrange] Hstep.
  destruct Hstep as [sys|sys i c' Hi Hadm|sys i e Hi Hadm|sys i Hi];
    unfold release; simpl.
  - rewrite in_flight_app. simpl. lia.
  - unfold try_admit in Hadm. case_bool_decide; [done|].
    injection Hadm as <-.
    rewrite (in_flight_insert _ _ _ _ Hi). simpl. lia.
  - rewrite (in_flight_insert _ _ _ _ Hi). simpl. lia.
  - rewrite (in_flight_insert _ _ _ _ Hi). simpl.
    pose proof (in_flight_insert _ _ _ Finished Hi) as Hfin.
    pose proof (in_flight_nonneg (<[i := Finished]> (handlers sys))).
    simpl in Hfin. lia.
Qed.

Lemma reachable_invariant sys : reachable sys → admission_invariant sys.
Proof.
  unfold reachable. intros Hreach.
  eapply (rtc_ind_r (λ sys, admission_invariant sys)); [| |exact Hreach].
  - unfold admission_invariant, MAX_CONCURRENT_REQUESTS. simpl. lia.
  - intros sys1 sys2 _ Hstep IH. by eapply step_invariant.
Qed.

(** C3.  From the empty server with the counter at 0, after any
    interleaving of arrivals, admissions, rejections and releases, the
    counter is between 0 and the capacity -- it is the number of handlers
    in flight -- and so it is after any further step. *)
Theorem counter_within_capacity sys :
  reachable sys →
  0 ≤ counter sys ≤ MAX_CONCURRENT_REQUESTS ∧
  counter sys = in_flight (handlers sys) ∧
  ∀ sys', step sys sys' → 0 ≤ counter sys' ≤ MAX_CONCURRENT_REQUESTS.
Proof.
  intros Hreach. pose proof (reachable_invariant _ Hreach) as Hinv.
  destruct (Hinv) as [Hcount Hrange].
  split; [done|]. split; [done|].
  intros sys' Hstep. by destruct (step_invariant sys sys').
Qed.

(** ** The fan-out, the join and the reply *)

Lemma submitted_app (t1 t2 : list (Event Strategy)) :
  submitted (t1 ++ t2) = (submitted t1 ++ submitted t2)%list.
Proof. apply omap_app. Qed.

Lemma submitted_imap (h : nat → nat)
    (g : nat → string → EngineCall Strategy) us :
  submitted (imap (λ i url, EvSubmit (h i) (g i url)) us)
  = imap (λ i url, (h i, g i url)) us.
Proof.
  revert h g. induction us as [|url rest IH]; intros h g; [done|].
  simpl. f_equal. apply (IH (λ i, h (S i)) (λ i, g (S i))).
Qed.

Lemma submitted_dispatch_trace req da dc (es cs : Strategy) :
  submitted (dispatch_trace req da dc es cs) = jobs_of req es cs.
Proof.
  unfold dispatch_trace, jobs_of. rewrite submitted_app. simpl.
  apply (submitted_imap (λ i, i) (λ _ url, job_call req es cs url)).
Qed.

Lemma shape_results_fmap include_raw rs :
  shape_results include_raw rs = shape_result include_raw <$> rs.
Proof.
  unfold shape_results, shape_result.
  destruct (negb (truthy include_raw)); [done|].
  by rewrite list_fmap_id.
Qed.

(** Clearing [html] and then serialising is serialising and then
    overwriting the entry [html] with null. *)
Lemma CrawlResult_dict_set_html r :
  CrawlResult_dict (set_html None r)
  = <["html" := VNone]> (CrawlResult_dict r).
Proof. unfold CrawlResult_dict. simpl. by rewrite insert_insert_eq. Qed.

(** The order in which the jobs finish decides nothing about a reply. *)
Lemma crawl_urls_order_irrelevant order order' s reply s' :
  order ≡ₚ seq 0 (length (urls (crawl_request s))) →
  crawl_urls import_module WebCrawler order s = (inr reply, s') →
  crawl_urls import_module WebCrawler order' s = (inr reply, s').
Proof.
  intros Hperm. rewrite !crawl_urls_run.
  case_bool_decide as Hcap; [done|].
  rewrite !crawl_body_run. cbn [crawl_request set_current_requests].
  destruct (extraction_strategy_args _) as [da|]; [|done].
  destruct (chunking_strategy_args _) as [dc|]; [|done].
  cbn zeta.
  destruct (collides da); [done|].
  destruct (import_strategy _ "crawl4ai.extraction_strategy" _ _ _)
    as [[e|es] s3]; [done|].
  destruct (collides dc); [done|].
  destruct (import_strategy _ "crawl4ai.chunking_strategy" _ _ _)
    as [[e|cs] s4]; [done|].
  destruct (submit_jobs _ _ _ _ _ _ _) as [[e|futures] s5] eqn:H5; [done|].
  apply submit_jobs_inv in H5 as (_ & Hlen & _).
  destruct (first_raised order futures) eqn:Hfirst; [done|].
  rewrite <-Hlen in Hperm.
  pose proof (gather_complete _ _ Hperm Hfirst) as Hall.
  assert (first_raised order' futures = None) as ->; [|done].
  rewrite Hall. apply gather_returned.
Qed.

(** C4, as the code has it.  Whenever an admitted request of N URLs is
    answered with a reply, N jobs were handed to the pool, one per URL and
    in input order, and the reply holds N outcomes, the one at position i
    being the (shaped, serialised) result the engine returned for the i-th
    URL -- whatever that result says about success -- and the same reply
    is produced for every order in which the jobs may finish. *)
Theorem reply_one_outcome_per_url order s reply s' :
  let req := crawl_request s in
  order ≡ₚ seq 0 (length (urls req)) →
  crawl_urls import_module WebCrawler order s = (inr reply, s') →
  ∃ es cs,
    submitted (trace s')
    = (submitted (trace s) ++ jobs_of req es cs)%list ∧
    length (jobs_of req es cs) = length (urls req) ∧
    length (results reply) = length (urls req) ∧
    (∀ i url, urls req !! i = Some url →
       ∃ crawler r,
         WebCrawler true = inr crawler ∧
         jobs_of req es cs !! i = Some (i, job_call req es cs url) ∧
         crawler i (job_call req es cs url) = inr r ∧
         results reply !! i
         = Some (CrawlResult_dict (shape_result (include_raw_html req) r))) ∧
    (∀ order',
       order' ≡ₚ seq 0 (length (urls req)) →
       crawl_urls import_module WebCrawler order' s = (inr reply, s')).
Proof.
  intros req Hperm Hrun.
  destruct (crawl_urls_reply_inv _ _ _ _ Hperm Hrun)
    as (es & cs & da & dc & rs & _ & _ & _ & _ & _ & Hlen & Hjobs
        & -> & ->).
  fold req in Hlen, Hjobs. exists es, cs. cbn [trace results].
  split; [by rewrite submitted_app, submitted_dispatch_trace|].
  split; [by unfold jobs_of; rewrite length_imap|].
  split; [by rewrite shape_results_fmap, !length_fmap|].
  split.
  - intros i url Hi. destruct (Hjobs i url Hi) as (crawler & r & ? & ? & Hr).
    exists crawler, r. split; [done|]. split.
    { unfold jobs_of. by rewrite list_lookup_imap, Hi. }
    split; [done|].
    by rewrite shape_results_fmap, !list_lookup_fmap, Hr.
  - intros order' _. by eapply crawl_urls_order_irrelevant.
Qed.


(** C6.  In every reply the results are the engine's results, in order,
    shaped by the flag alone.  With [include_raw_html] false every
    serialised result has a null [html] and all its other entries (the
    extracted blocks and the chunked segments among them) as the engine
    produced them; with [include_raw_html] true every serialised result is
    exactly what the engine produced.  False is the flag's default. *)
Theorem include_raw_shaping order s reply s' :
  let req := crawl_request s in
  order ≡ₚ seq 0 (length (urls req)) →
  crawl_urls import_module WebCrawler order s = (inr reply, s') →
  ∃ es cs rs,
    length rs = length (urls req) ∧
    (∀ i url, urls req !! i = Some url →
       ∃ crawler r,
         WebCrawler true = inr crawler ∧
         crawler i (job_call req es cs url) = inr r ∧
         rs !! i = Some r) ∧
    results reply
    = CrawlResult_dict <$> (shape_result (include_raw_html req) <$> rs) ∧
    (include_raw_html req = Some false →
       length (results reply) = length rs ∧
       ∀ i r, rs !! i = Some r →
         ∃ d, results reply !! i = Some d ∧
              d !! "html" = Some VNone ∧
              d !! "extracted_blocks"
              = Some (VList (VStr <$> extracted_blocks r)) ∧
              d !! "chunked_segments"
              = Some (VList (VStr <$> chunked_segments r)) ∧
              ∀ k, k ≠ "html" → d !! k = CrawlResult_dict r !! k) ∧
    (include_raw_html req = Some true →
       results reply = CrawlResult_dict <$> rs) ∧
    (∀ us, include_raw_html (CrawlRequest_default us) = Some false).
Proof.
  intros req Hperm Hrun.
  destruct (crawl_urls_reply_inv _ _ _ _ Hperm Hrun)
    as (es & cs & da & dc & rs & _ & _ & _ & _ & _ & Hlen & Hjobs
        & -> & _).
  fold req in Hlen, Hjobs |- *. exists es, cs, rs. cbn [results].
  rewrite shape_results_fmap.
  do 3 (split; [done|]). split; [|split; [|done]].
  - intros ->. split; [by rewrite !length_fmap|].
    intros i r Hr. eexists.
    rewrite !list_lookup_fmap, Hr. split; [done|].
    change (shape_result (Some false) r) with (set_html None r).
    rewrite CrawlResult_dict_set_html.
    split; [by rewrite lookup_insert_eq|].
    rewrite !lookup_insert_ne by done. unfold CrawlResult_dict.
    split; [by rewrite lookup_insert_ne, lookup_insert_eq by done|].
    split; [by do 2 (rewrite lookup_insert_ne by done);
              rewrite lookup_insert_eq|].
    intros k Hk. by rewrite (lookup_insert_ne _ "html" k).
  - intros ->. unfold shape_result. cbn. by rewrite list_fmap_id.
Qed.

(** ** Resolution errors *)

(** C7, as the code has it.  For an admitted request whose two argument
    mappings are present and whose resolution gets as far as a name that
    is not an attribute of its strategy module, or whose strategy module
    cannot be imported (the extraction name, or the chunking name once the
    extraction strategy has been built; the mapping sent with the name
    holds no key [module_name] or [class_name]): the outcome is an
    [HTTPException] with status 400; the constructor of that name is never
    called; no job is handed to the pool; and the slot is released. *)
Theorem unregistered_strategy_bad_request order s module_name n calls :
  let req := crawl_request s in
  let out := crawl_urls import_module WebCrawler order s in
  current_requests s < MAX_CONCURRENT_REQUESTS →
  is_Some (extraction_strategy_args req) →
  is_Some (chunking_strategy_args req) →
  unresolved import_module req module_name n calls →
  (∃ detail, out.1 = inl (HTTPException 400 detail)) ∧
  http_status out.1 = 400 ∧
  trace out.2 = (trace s ++ calls)%list ∧
  (∀ kwargs, (module_name, Some n, kwargs) ∉ constructed calls) ∧
  submitted calls = [] ∧
  current_requests out.2 = current_requests s.
Proof.
  intros req out Hc [da Hda] [dc Hdc] Hun. unfold out.
  rewrite crawl_urls_run, bool_decide_eq_false_2 by lia.
  rewrite crawl_body_run. cbn [crawl_request set_current_requests].
  fold req. rewrite Hda, Hdc. cbn zeta.
  destruct Hun as [n da' Hn Hda' Hfree Hun
                  |n es da' dc' Hres Hda' Hn Hdc' Hfree Hun].
  - assert (da' = da) as -> by congruence.
    rewrite Hfree, Hn.
    match goal with
    | |- context [import_strategy _ ?m _ ?k ?s2] =>
        destruct (import_strategy_unregistered m n k s2 Hun) as [detail ->]
    end.
    cbn. rewrite app_nil_r. unfold release.
    repeat split; [by eexists| |lia].
    intros kwargs Hin. by apply elem_of_nil in Hin.
  - destruct (import_strategy_resolves _ _ _ _ Hres)
      as (d & Hd & Hfree' & Hrun).
    assert (d = da) as -> by congruence.
    assert (da' = da) as -> by congruence.
    assert (dc' = dc) as -> by congruence.
    rewrite Hfree', Hrun, Hfree, Hn.
    match goal with
    | |- context [import_strategy _ ?m (Some n) ?k ?s2] =>
        destruct (import_strategy_unregistered m n k s2 Hun) as [detail ->]
    end.
    cbn. unfold release.
    repeat split; [by eexists| |lia].
    intros kwargs [Hin|Hin]%elem_of_cons; [done|].
    by apply elem_of_nil in Hin.
Qed.

(** C8, as the code has it.  For an admitted request whose resolution
    gets as far as calling a registered constructor that raises on the
    request's arguments (the mapping sent with the name holds no key
    [module_name] or [class_name]): the outcome is that exception as the
    resolver's [except] clauses leave it.  A [TypeError] -- what Python
    raises for arguments a constructor does not accept -- and an exception
    of any class other than [ImportError], [AttributeError] and
    [HTTPException] escape as they are and are answered with the generic
    500; an [HTTPException] raised by the constructor escapes with its own
    status; only an [ImportError] or [AttributeError] raised by the
    constructor becomes a 400.  No job is handed to the pool and the slot
    is released. *)
Theorem construction_error_surfaced order s module_name n e calls :
  let req := crawl_request s in
  let out := crawl_urls import_module WebCrawler order s in
  current_requests s < MAX_CONCURRENT_REQUESTS →
  is_Some (chunking_strategy_args req) →
  construction_fails import_module req module_name n e calls →
  out.1 = inl (surfaced module_name n e) ∧
  (∀ msg, e = TypeError msg → http_status out.1 = 500) ∧
  (∀ cls msg, e = OtherError cls msg → http_status out.1 = 500) ∧
  (∀ status detail, e = HTTPException status detail →
                    http_status out.1 = status) ∧
  (∀ msg, e = ImportError msg ∨ e = AttributeError msg →
          http_status out.1 = 400) ∧
  trace out.2 = (trace s ++ calls)%list ∧
  submitted calls = [] ∧
  current_requests out.2 = current_requests s.
Proof.
  intros req out Hc [dc Hdc] Hfail. unfold out.
  rewrite crawl_urls_run, bool_decide_eq_false_2 by lia.
  rewrite crawl_body_run. cbn [crawl_request set_current_requests].
  fold req.
  destruct Hfail
    as [n c da e Hn Hda Hfree (m & Hm & Hmn) Hraise
       |n c es da dc' e Hres Hda Hn Hdc' Hfree (m & Hm & Hmn) Hraise].
  - rewrite Hda, Hdc. cbn zeta.
    rewrite Hfree, import_strategy_run, Hn, Hm, Hmn, Hraise.
    unfold release.
    destruct e; cbn; (repeat split; try done; try lia);
      try (by intros ? [|]); by intros ?? [= <- _].
  - rewrite Hda, Hdc. cbn zeta.
    destruct (import_strategy_resolves _ _ _ _ Hres)
      as (d & Hd & Hfree' & Hrun).
    assert (d = da) as -> by congruence.
    assert (dc' = dc) as -> by congruence.
    rewrite Hfree', Hrun, Hfree, import_strategy_run, Hn, Hm, Hmn, Hraise.
    unfold release.
    destruct e; cbn; rewrite <-?app_assoc;
      (repeat split; try done; try lia);
      try (by intros ? [|]); by intros ?? [= <- _].
Qed.

(** ** The request object and the constructor calls *)

Lemma crawl_body_request order s :
  crawl_request (crawl_body import_module WebCrawler order s).2 =
  match extraction_strategy_args (crawl_request s) with
  | None => crawl_request s
  | Some _ => marked (crawl_request s)
  end.
Proof.
  rewrite crawl_body_run. cbn zeta. unfold marked.
  destruct (extraction_strategy_args (crawl_request s)) as [da|]; [|done].
  destruct (chunking_strategy_args (crawl_request s)) as [dc|] eqn:Hdc.
  - destruct (collides da); [done|].
    match goal with
    | |- context [import_strategy _ ?m ?c ?k ?s2] =>
        pose proof (import_strategy_preserves_request m c k s2) as H3;
        destruct (import_strategy import_module m c k s2) as [[e|es] s3]
    end; [done|].
    destruct (collides dc); [cbn in *; congruence|].
    match goal with
    | |- context [import_strategy _ ?m ?c ?k s3] =>
        pose proof (import_strategy_preserves_request m c k s3) as H4;
        destruct (import_strategy import_module m c k s3) as [[e|cs] s4]
    end; [cbn in *; congruence|].
    match goal with
    | |- context [submit_jobs _ _ ?r _ _ ?u s4] =>
        pose proof (submit_jobs_preserves_request 0 r es cs u s4) as H5;
        destruct (submit_jobs WebCrawler 0 r es cs u s4)
          as [[e|futures] s5]
    end; cbn in *; [congruence|].
    destruct (first_raised order futures); cbn; congruence.
  - cbn. unfold set_chunking_strategy_args, set_extraction_strategy_args.
    cbn. by rewrite Hdc.
Qed.

(** C9, as the code has it.  Processing leaves the URL list, the flags,
    the threshold, the two strategy names and the selector of the request
    as the caller supplied them.  The two argument mappings are written
    to: for an admitted request the extraction mapping, when present, has
    [verbose] set to [True] (over any value of the caller's), and so has
    the chunking mapping when both mappings are present.  A rejected
    request is left as it was. *)
Theorem request_after_processing order s :
  let req := crawl_request s in
  let req' :=
    crawl_request (crawl_urls import_module WebCrawler order s).2 in
  let admitted :=
    bool_decide (current_requests s < MAX_CONCURRENT_REQUESTS) in
  urls req' = urls req ∧
  include_raw_html req' = include_raw_html req ∧
  bypass_cache req' = bypass_cache req ∧
  extract_blocks req' = extract_blocks req ∧
  word_count_threshold req' = word_count_threshold req ∧
  extraction_strategy req' = extraction_strategy req ∧
  chunking_strategy req' = chunking_strategy req ∧
  css_selector req' = css_selector req ∧
  verbose req' = verbose req ∧
  extraction_strategy_args req'
  = (if admitted then with_verbose <$> extraction_strategy_args req
     else extraction_strategy_args req) ∧
  chunking_strategy_args req'
  = (match extraction_strategy_args req with
     | Some _ =>
         if admitted then with_verbose <$> chunking_strategy_args req
         else chunking_strategy_args req
     | None => chunking_strategy_args req
     end) ∧
  (admitted = false → req' = req).
Proof.
  intros req req' admitted.
  assert (req' = if admitted
                 then match extraction_strategy_args req with
                      | None => req
                      | Some _ => marked req
                      end
                 else req) as ->.
  { unfold req', admitted. rewrite crawl_urls_run.
    case_bool_decide as Hcap.
    - by rewrite bool_decide_eq_false_2 by lia.
    - rewrite bool_decide_eq_true_2 by lia.
      cbn [snd set_current_requests crawl_request].
      by rewrite crawl_body_request. }
  destruct admitted.
  - unfold marked.
    destruct (extraction_strategy_args req) as [da|] eqn:Hda;
      cbn; rewrite ?Hda; repeat split; done.
  - repeat split; by destruct (extraction_strategy_args req).
Qed.

Lemma constructed_app (t1 t2 : list (Event Strategy)) :
  constructed (t1 ++ t2) = (constructed t1 ++ constructed t2)%list.
Proof. apply omap_app. Qed.

Lemma submit_jobs_preserves_constructed i req es cs us :
  preserves (λ s, constructed (trace s))
    (submit_jobs WebCrawler i req es cs us).
Proof.
  revert i. induction us as [|url rest IH]; intros i; simpl.
  - apply preserves_ret.
  - unfold get_crawler.
    apply preserves_bind; [apply preserves_lift|]. intros crawler.
    apply preserves_bind.
    { apply preserves_modify. intros s. cbn [trace add_event].
      rewrite constructed_app. cbn. by rewrite app_nil_r. }
    intros _. apply preserves_bind; [apply IH|].
    intros futures. apply preserves_ret.
Qed.

(** The resolver calls at most one constructor, with the arguments it was
    given. *)
Lemma import_strategy_constructed module_name class_name kwargs s :
  ∃ l,
    constructed
      (trace (import_strategy import_module module_name class_name
                kwargs s).2)
    = (constructed (trace s) ++ l)%list ∧
    (l = [] ∨ l = [(module_name, class_name, kwargs)]).
Proof.
  rewrite import_strategy_run.
  destruct (import_module module_name) as [m|];
    [|exists []; by rewrite app_nil_r; auto].
  destruct class_name as [n|]; [|exists []; by rewrite app_nil_r; auto].
  destruct (m n) as [c|]; [|exists []; by rewrite app_nil_r; auto].
  exists [(module_name, Some n, kwargs)]. split; [|by right].
  cbn [snd trace add_event]. by rewrite constructed_app.
Qed.

Lemma crawl_body_constructed order s :
  ∃ calls,
    constructed (trace (crawl_body import_module WebCrawler order s).2)
    = (constructed (trace s) ++ calls)%list ∧
    ∀ call, call ∈ calls → call_of_request (crawl_request s) call.
Proof.
  rewrite crawl_body_run. cbn zeta.
  destruct (extraction_strategy_args (crawl_request s)) as [da|] eqn:Hda;
    [|exists []; split; [by rewrite app_nil_r|by intros ? ?%elem_of_nil]].
  destruct (chunking_strategy_args (crawl_request s)) as [dc|] eqn:Hdc;
    [|exists []; split; [by rewrite app_nil_r|by intros ? ?%elem_of_nil]].
  destruct (collides da);
    [exists []; split; [by rewrite app_nil_r|by intros ? ?%elem_of_nil]|].
  match goal with
  | |- context [import_strategy _ ?m ?c ?k ?s2] =>
      destruct (import_strategy_constructed m c k s2) as (l1 & H1 & Hl1);
      destruct (import_strategy import_module m c k s2) as [[e|es] s3]
  end; cbn in H1.
  all: assert (∀ call, call ∈ l1 → call_of_request (crawl_request s) call)
    as Hok1
    by (intros call Hin; destruct Hl1 as [->| ->];
        [by apply elem_of_nil in Hin|];
        apply list_elem_of_singleton in Hin as ->;
        left; repeat split; by exists da).
  { by exists l1. }
  destruct (collides dc); [by exists l1|].
  match goal with
  | |- context [import_strategy _ ?m ?c ?k s3] =>
      destruct (import_strategy_constructed m c k s3) as (l2 & H2 & Hl2);
      destruct (import_strategy import_module m c k s3) as [[e|cs] s4]
  end; cbn in H2.
  all: assert (∀ call, call ∈ l2 → call_of_request (crawl_request s) call)
    as Hok2
    by (intros call Hin; destruct Hl2 as [->| ->];
        [by apply elem_of_nil in Hin|];
        apply list_elem_of_singleton in Hin as ->;
        right; repeat split; by exists dc).
  all: assert (∀ call, call ∈ (l1 ++ l2)%list →
                       call_of_request (crawl_request s) call) as Hok
    by (intros call [?|?]%elem_of_app; auto).
  { exists (l1 ++ l2)%list. split; [|done].
    cbn. by rewrite H2, H1, <-app_assoc. }
  match goal with
  | |- context [submit_jobs _ _ ?r _ _ ?u s4] =>
      pose proof (submit_jobs_preserves_constructed 0 r es cs u s4) as H5;
      destruct (submit_jobs WebCrawler 0 r es cs u s4)
        as [[e|futures] s5]
  end; cbn in H5.
  { exists (l1 ++ l2)%list. split; [|done].
    cbn. by rewrite H5, H2, H1, <-app_assoc. }
  exists (l1 ++ l2)%list. split; [|done].
  destruct (first_raised order futures); cbn;
    by rewrite H5, H2, H1, <-app_assoc.
Qed.

Lemma crawl_body_constructed_resolved order s es cs :
  let req := crawl_request s in
  resolves import_module "crawl4ai.extraction_strategy"
    (extraction_strategy req) (extraction_strategy_args req) es →
  resolves import_module "crawl4ai.chunking_strategy"
    (chunking_strategy req) (chunking_strategy_args req) cs →
  ∃ da dc,
    extraction_strategy_args req = Some da ∧
    chunking_strategy_args req = Some dc ∧
    constructed (trace (crawl_body import_module WebCrawler order s).2)
    = (constructed (trace s) ++
       [("crawl4ai.extraction_strategy", extraction_strategy req,
         <["verbose" := VBool true]> da);
        ("crawl4ai.chunking_strategy", chunking_strategy req,
         <["verbose" := VBool true]> dc)])%list.
Proof.
  intros req (da & Hda & Hna & He)%import_strategy_resolves
    (dc & Hdc & Hnc & Hk)%import_strategy_resolves.
  exists da, dc. do 2 (split; [done|]).
  rewrite crawl_body_run. cbn zeta. fold req. rewrite Hda, Hdc.
  rewrite Hna, He, Hnc, Hk.
  match goal with
  | |- context [submit_jobs _ _ ?r _ _ ?u ?s4] =>
      pose proof (submit_jobs_preserves_constructed 0 r es cs u s4) as H5;
      destruct (submit_jobs WebCrawler 0 r es cs u s4)
        as [[e|futures] s5]
  end; cbn [fst snd trace add_event] in H5.
  - cbn [fst snd]. rewrite H5, !constructed_app. cbn.
    by rewrite <-app_assoc.
  - destruct (first_raised order futures); cbn [fst snd];
      rewrite H5, !constructed_app; cbn; by rewrite <-app_assoc.
Qed.

(** C10, as the code has it.  Every constructor call the handler makes is
    a call of line 111 or 112: its keyword arguments are the caller's
    mapping with [verbose] set to [True], so they hold [verbose = True]
    whatever the caller put under that key and whatever the request's own
    [verbose] flag is.  For an admitted request whose names and mappings
    resolve (names registered, constructors returning, no key
    [module_name] or [class_name] in the two mappings), both constructors
    are called, the extraction one first. *)
Theorem constructors_get_verbose order s :
  let req := crawl_request s in
  let out := crawl_urls import_module WebCrawler order s in
  ∃ calls,
    constructed (trace out.2) = (constructed (trace s) ++ calls)%list ∧
    (∀ module_name class_name kwargs,
       (module_name, class_name, kwargs) ∈ calls →
       kwargs !! "verbose" = Some (VBool true) ∧
       call_of_request req (module_name, class_name, kwargs)) ∧
    (∀ es cs,
       current_requests s < MAX_CONCURRENT_REQUESTS →
       resolves import_module "crawl4ai.extraction_strategy"
         (extraction_strategy req) (extraction_strategy_args req) es →
       resolves import_module "crawl4ai.chunking_strategy"
         (chunking_strategy req) (chunking_strategy_args req) cs →
       ∃ da dc,
         extraction_strategy_args req = Some da ∧
         chunking_strategy_args req = Some dc ∧
         calls
         = [("crawl4ai.extraction_strategy", extraction_strategy req,
             <["verbose" := VBool true]> da);
            ("crawl4ai.chunking_strategy", chunking_strategy req,
             <["verbose" := VBool true]> dc)]).
Proof.
  intros req out. unfold out. rewrite crawl_urls_run.
  case_bool_decide as Hcap.
  - exists []. cbn. rewrite app_nil_r. split; [done|]. split.
    + by intros ??? ?%elem_of_nil.
    + intros. lia.
  - cbn [fst snd].
    destruct (crawl_body_constructed order
                (set_current_requests (current_requests s + 1) s))
      as (calls & Hcalls & Hok).
    cbn [trace set_current_requests crawl_request] in Hcalls, Hok.
    exists calls. split; [done|]. split.
    + intros m cn kw Hin. split; [|by apply Hok].
      destruct (Hok _ Hin) as [(_ & _ & d & _ & ->)|(_ & _ & d & _ & ->)];
        apply lookup_insert_eq.
    + intros es cs _ He Hk.
      destruct (crawl_body_constructed_resolved order
                  (set_current_requests (current_requests s + 1) s)
                  es cs He Hk) as (da & dc & Hda & Hdc & Hrun).
      exists da, dc. do 2 (split; [done|]).
      cbn [trace set_current_requests crawl_request] in Hrun.
      rewrite Hcalls in Hrun. by apply app_inv_head in Hrun.
Qed.

End Properties.

(** * The properties on the concrete deployment *)

(** C1, run: the slot comes back after a reply, after an unregistered
    strategy name, after a failed job and after a [TypeError] raised before
    resolution. *)
Lemma crawl_urls_releases_slot_witness :
  current_requests (Demo.handle 3 Demo.batch_ok [1; 0]%nat).2 = 3 ∧
  current_requests (Demo.handle 3 Demo.unknown_extraction [0]%nat).2 = 3 ∧
  current_requests (Demo.handle 3 Demo.batch_down [2; 1; 0]%nat).2 = 3 ∧
  current_requests (Demo.handle 3 Demo.null_args [0]%nat).2 = 3.
Proof.
  assert (3 < MAX_CONCURRENT_REQUESTS) as Hc by reflexivity.
  split; [|split; [|split]].
  - exact (proj2 (proj2 (proj2
             (crawl_urls_releases_slot Demo.import_module Demo.WebCrawler
                [1; 0]%nat (Demo.start 3 Demo.batch_ok) Hc)))).
  - exact (proj2 (proj2 (proj2
             (crawl_urls_releases_slot Demo.import_module Demo.WebCrawler
                [0]%nat (Demo.start 3 Demo.unknown_extraction) Hc)))).
  - exact (proj2 (proj2 (proj2
             (crawl_urls_releases_slot Demo.import_module Demo.WebCrawler
                [2; 1; 0]%nat (Demo.start 3 Demo.batch_down) Hc)))).
  - exact (proj2 (proj2 (proj2
             (crawl_urls_releases_slot Demo.import_module Demo.WebCrawler
                [0]%nat (Demo.start 3 Demo.null_args) Hc)))).
Defined.


(** C3, run: two requests arrive, both are admitted, one finishes. *)
Lemma counter_within_capacity_witness :
  reachable Demo.one_left ∧
  0 ≤ counter Demo.one_left ≤ MAX_CONCURRENT_REQUESTS.
Proof.
  assert (reachable Demo.one_left) as Hreach.
  { unfold reachable, Demo.one_left.
    eapply rtc_l; [apply step_arrive|]. simpl.
    eapply rtc_l; [apply step_arrive|]. simpl.
    eapply rtc_l; [by apply (step_admit _ 0 1)|]. simpl.
    eapply rtc_l; [by apply (step_admit _ 1 2)|]. simpl.
    eapply rtc_l; [by apply (step_release _ 0)|]. simpl.
    apply rtc_refl. }
  split; [done|].
  exact (proj1 (counter_within_capacity Demo.one_left Hreach)).
Defined.

(** A mapping that holds at most the key [verbose] has no key named like
    a parameter of the resolver. *)
Lemma verbose_only_collides (d : dict) :
  dom d ⊆ ({["verbose"]} : gset string) → collides d = false.
Proof.
  intros Hdom. unfold collides. apply bool_decide_eq_false_2.
  intros [Hkey|Hkey]; apply elem_of_dom, Hdom in Hkey;
    by apply elem_of_singleton in Hkey.
Qed.

(** The deployment's two default strategies resolve, whatever [verbose]
    entry the caller sends along. *)
Lemma demo_resolves_extraction (d : dict) :
  dom d ⊆ ({["verbose"]} : gset string) →
  resolves Demo.import_module "crawl4ai.extraction_strategy"
    (Some "NoExtractionStrategy") (Some d)
    ("NoExtractionStrategy", with_verbose d).
Proof.
  intros Hdom.
  exists d, "NoExtractionStrategy",
    (Demo.accepts {["verbose"]} "NoExtractionStrategy").
  split; [done|]. split; [by apply verbose_only_collides|].
  split; [done|]. split.
  - by exists Demo.extraction_module.
  - unfold Demo.accepts, with_verbose.
    rewrite bool_decide_eq_true_2; [done|].
    rewrite dom_insert_L. by apply union_least.
Qed.

Lemma demo_resolves_chunking (d : dict) :
  dom d ⊆ ({["verbose"]} : gset string) →
  resolves Demo.import_module "crawl4ai.chunking_strategy"
    (Some "RegexChunking") (Some d)
    ("RegexChunking", with_verbose d).
Proof.
  intros Hdom.
  exists d, "RegexChunking",
    (Demo.accepts {["verbose"; "patterns"]} "RegexChunking").
  split; [done|]. split; [by apply verbose_only_collides|].
  split; [done|]. split.
  - by exists Demo.chunking_module.
  - unfold Demo.accepts, with_verbose.
    rewrite bool_decide_eq_true_2; [done|].
    rewrite dom_insert_L. set_unfold. intros x [->|Hx]; [by left|].
    left. by apply Hdom.
Qed.

(** C4, as the specification states it, fails: a batch of three URLs one
    of whose jobs raises is admitted, its three jobs are created, and the
    handler's outcome is that exception (a 500) -- there is no reply, so no
    three outcomes. *)
Lemma reply_per_url_counterexample :
  length (urls Demo.batch_down) = 3%nat ∧
  length (submitted
            (trace (Demo.handle 0 Demo.batch_down [0; 1; 2]%nat).2))
  = 3%nat ∧
  http_status (Demo.handle 0 Demo.batch_down [0; 1; 2]%nat).1 = 500 ∧
  ¬ ∃ reply,
      (Demo.handle 0 Demo.batch_down [0; 1; 2]%nat).1 = inr reply ∧
      length (results reply) = 3%nat.
Proof.
  split; [done|]. split; [by vm_compute|]. split; [by vm_compute|].
  intros (reply & Hreply & _). vm_compute in Hreply. discriminate.
Qed.

(** C4, run: a batch of two, the second job finishing first and its result
    reporting a failure. *)
Lemma reply_one_outcome_per_url_witness :
  ∃ reply s',
    Demo.handle 0 Demo.batch_ok [1; 0]%nat = (inr reply, s') ∧
    length (results reply) = 2%nat ∧
    Demo.handle 0 Demo.batch_ok [0; 1]%nat = (inr reply, s').
Proof.
  set (out := Demo.handle 0 Demo.batch_ok [1; 0]%nat).
  set (reply := match out.1 with inr r => r | inl _ => mkReply [] end).
  assert (Demo.handle 0 Demo.batch_ok [1; 0]%nat = (inr reply, out.2))
    as Hrun by (vm_compute; reflexivity).
  assert ([1; 0]%nat ≡ₚ
          seq 0 (length (urls (crawl_request (Demo.start 0 Demo.batch_ok)))))
    as Hperm by apply perm_swap.
  destruct (reply_one_outcome_per_url Demo.import_module Demo.WebCrawler
              _ _ _ _ Hperm Hrun) as (es & cs & _ & _ & Hlen & _ & Hany).
  exists reply, out.2. split; [exact Hrun|]. split; [exact Hlen|].
  by apply Hany.
Defined.



(** C6, run: the default request leaves [include_raw_html] false, and both
    results of the reply go out without their raw content. *)
Lemma include_raw_shaping_witness :
  ∃ reply s' (rs : list CrawlResult),
    Demo.handle 0 Demo.batch_ok [1; 0]%nat = (inr reply, s') ∧
    length rs = 2%nat ∧
    length (results reply) = length rs ∧
    ∀ i r, rs !! i = Some r →
      ∃ d, results reply !! i = Some d ∧ d !! "html" = Some VNone.
Proof.
  set (out := Demo.handle 0 Demo.batch_ok [1; 0]%nat).
  set (reply := match out.1 with inr r => r | inl _ => mkReply [] end).
  assert (Demo.handle 0 Demo.batch_ok [1; 0]%nat = (inr reply, out.2))
    as Hrun by (vm_compute; reflexivity).
  assert ([1; 0]%nat ≡ₚ
          seq 0 (length (urls (crawl_request (Demo.start 0 Demo.batch_ok)))))
    as Hperm by apply perm_swap.
  destruct (include_raw_shaping Demo.import_module Demo.WebCrawler
              _ _ _ _ Hperm Hrun)
    as (es & cs & rs & Hlen & _ & _ & Hfalse & _).
  destruct (Hfalse eq_refl) as [Hlen' Hhtml].
  exists reply, out.2, rs. split; [exact Hrun|]. split; [exact Hlen|].
  split; [exact Hlen'|].
  intros i r Hr. destruct (Hhtml i r Hr) as (d & Hd & Hnull & _).
  by exists d.
Defined.

(** C7, as the specification states it, fails: the request names a chunking
    strategy that is not registered, and is answered with a 500, not a 400
    -- the extraction constructor, called first, raised a [ValueError]. *)
Lemma unregistered_strategy_counterexample :
  chunking_strategy Demo.bad_args_unknown_chunking = Some "NoSuchChunking" ∧
  unregistered Demo.import_module "crawl4ai.chunking_strategy"
    "NoSuchChunking" ∧
  http_status (Demo.handle 0 Demo.bad_args_unknown_chunking [0]%nat).1
  = 500 ∧
  ¬ ∃ detail,
      (Demo.handle 0 Demo.bad_args_unknown_chunking [0]%nat).1
      = inl (HTTPException 400 detail).
Proof.
  split; [done|]. split; [by vm_compute|]. split; [by vm_compute|].
  intros (detail & Hout). vm_compute in Hout. discriminate.
Qed.

(** C7, run: an unregistered chunking name, met after the extraction
    strategy was built, and an unregistered extraction name. *)
Lemma unregistered_strategy_bad_request_witness :
  http_status (Demo.handle 0 Demo.unknown_chunking [0]%nat).1 = 400 ∧
  submitted (trace (Demo.handle 0 Demo.unknown_chunking [0]%nat).2) = [] ∧
  http_status (Demo.handle 0 Demo.unknown_extraction [0]%nat).1 = 400 ∧
  trace (Demo.handle 0 Demo.unknown_extraction [0]%nat).2 = [].
Proof.
  assert (0 < MAX_CONCURRENT_REQUESTS) as Hc by reflexivity.
  assert (dom (∅ : dict) ⊆ ({["verbose"]} : gset string)) as Hdom
    by (by set_unfold).
  assert (unresolved Demo.import_module Demo.unknown_chunking
            "crawl4ai.chunking_strategy" "NoSuchChunking"
            [EvConstruct "crawl4ai.extraction_strategy"
               (extraction_strategy Demo.unknown_chunking) (with_verbose ∅)])
    as Hchunking.
  { eapply unresolved_chunking;
      [|done|done|done|by apply verbose_only_collides|by vm_compute].
    exact (demo_resolves_extraction ∅ Hdom). }
  assert (unresolved Demo.import_module Demo.unknown_extraction
            "crawl4ai.extraction_strategy" "NoSuchStrategy" [])
    as Hextraction.
  { apply (unresolved_extraction _ _ _ ∅);
      [done|done|by apply verbose_only_collides|by vm_compute]. }
  destruct (unregistered_strategy_bad_request Demo.import_module
              Demo.WebCrawler [0]%nat (Demo.start 0 Demo.unknown_chunking)
              _ _ _ Hc (mk_is_Some _ _ eq_refl) (mk_is_Some _ _ eq_refl)
              Hchunking)
    as (_ & Hstatus & Htrace & _ & Hsub & _).
  destruct (unregistered_strategy_bad_request Demo.import_module
              Demo.WebCrawler [0]%nat (Demo.start 0 Demo.unknown_extraction)
              _ _ _ Hc (mk_is_Some _ _ eq_refl) (mk_is_Some _ _ eq_refl)
              Hextraction)
    as (_ & Hstatus' & Htrace' & _).
  split; [exact Hstatus|]. split.
  - unfold Demo.handle. rewrite Htrace. exact Hsub.
  - split; [exact Hstatus'|exact Htrace'].
Defined.

(** C8, as the specification states it, fails: the extraction name is
    registered, its constructor raises a [ValueError] on the caller's
    arguments (they carry no API token), and the request is answered with
    the generic 500. *)
Lemma construction_error_counterexample :
  registered Demo.import_module "crawl4ai.extraction_strategy"
    "LLMExtractionStrategy" Demo.LLMExtractionStrategy ∧
  Demo.LLMExtractionStrategy (with_verbose {["provider" := VStr "openai"]})
  = inl (OtherError "ValueError" "API token must be provided") ∧
  (Demo.handle 0 Demo.bad_args [0]%nat).1
  = inl (OtherError "ValueError" "API token must be provided") ∧
  http_status (Demo.handle 0 Demo.bad_args [0]%nat).1 = 500 ∧
  http_status (Demo.handle 0 Demo.bad_args [0]%nat).1 ≠ 400.
Proof.
  split; [by exists Demo.extraction_module|].
  split; [by vm_compute|]. split; [by vm_compute|].
  split; by vm_compute.
Qed.

(** C8, run: the same request, through the theorem. *)
Lemma construction_error_surfaced_witness :
  (Demo.handle 0 Demo.bad_args [0]%nat).1
  = inl (OtherError "ValueError" "API token must be provided") ∧
  http_status (Demo.handle 0 Demo.bad_args [0]%nat).1 = 500 ∧
  current_requests (Demo.handle 0 Demo.bad_args [0]%nat).2 = 0.
Proof.
  assert (0 < MAX_CONCURRENT_REQUESTS) as Hc by reflexivity.
  assert (construction_fails Demo.import_module Demo.bad_args
            "crawl4ai.extraction_strategy" "LLMExtractionStrategy"
            (OtherError "ValueError" "API token must be provided")
            [EvConstruct "crawl4ai.extraction_strategy"
               (Some "LLMExtractionStrategy")
               (with_verbose {["provider" := VStr "openai"]})])
    as Hfail.
  { apply (construction_fails_extraction _ _ _ Demo.LLMExtractionStrategy);
      [done|done|by vm_compute| |by vm_compute].
    by exists Demo.extraction_module. }
  destruct (construction_error_surfaced Demo.import_module Demo.WebCrawler
              [0]%nat (Demo.start 0 Demo.bad_args) _ _ _ _ Hc
              (mk_is_Some _ _ eq_refl) Hfail)
    as (Hout & _ & Hother & _ & _ & _ & _ & Hcounter).
  split; [exact Hout|]. split; [|exact Hcounter].
  by eapply Hother.
Defined.

(** C9, as the specification states it, fails: the default request arrives
    with two empty argument mappings and leaves the handler with [verbose]
    written into both. *)
Lemma request_mutated_counterexample :
  extraction_strategy_args Demo.batch_ok = Some ∅ ∧
  chunking_strategy_args Demo.batch_ok = Some ∅ ∧
  extraction_strategy_args
    (crawl_request (Demo.handle 0 Demo.batch_ok [0; 1]%nat).2)
  = Some {["verbose" := VBool true]} ∧
  chunking_strategy_args
    (crawl_request (Demo.handle 0 Demo.batch_ok [0; 1]%nat).2)
  = Some {["verbose" := VBool true]} ∧
  crawl_request (Demo.handle 0 Demo.batch_ok [0; 1]%nat).2 ≠ Demo.batch_ok.
Proof.
  do 2 (split; [done|]).
  split; [by vm_compute|]. split; [by vm_compute|].
  intros Heq.
  apply (f_equal (λ r, extraction_strategy_args r ≫= (.!! "verbose")))
    in Heq.
  vm_compute in Heq. discriminate.
Qed.

(** C10, as the specification states it, fails: two requests are admitted
    and no constructor is invoked for either.  The first names an
    extraction strategy that its module does not have; the second sends
    the key [class_name] in its extraction mapping, a second value for the
    resolver's parameter, and the call of line 111 raises. *)
Lemma constructors_invoked_counterexample :
  try_admit 0 = inr 1 ∧
  constructed (trace (Demo.handle 0 Demo.unknown_extraction [0]%nat).2)
  = [] ∧
  http_status (Demo.handle 0 Demo.unknown_extraction [0]%nat).1 = 400 ∧
  collides (with_verbose {["class_name" := VStr "NoExtractionStrategy"]})
  = true ∧
  constructed (trace (Demo.handle 0 Lab.colliding [0]%nat).2) = [] ∧
  http_status (Demo.handle 0 Lab.colliding [0]%nat).1 = 500.
Proof.
  split; [done|]. split; [by vm_compute|]. split; [by vm_compute|].
  split; [by vm_compute|]. split; by vm_compute.
Qed.

(** C10, run: the caller sends [verbose = False] three times over -- in
    both argument mappings and as the request's own flag -- and both
    constructors are called with [verbose = True]. *)
Lemma constructors_get_verbose_witness :
  verbose Demo.quiet = Some false ∧
  extraction_strategy_args Demo.quiet = Some {["verbose" := VBool false]} ∧
  chunking_strategy_args Demo.quiet = Some {["verbose" := VBool false]} ∧
  ∃ calls,
    constructed (trace (Demo.handle 0 Demo.quiet [0]%nat).2) = calls ∧
    length calls = 2%nat ∧
    ∀ module_name class_name kwargs,
      (module_name, class_name, kwargs) ∈ calls →
      kwargs !! "verbose" = Some (VBool true).
Proof.
  do 3 (split; [done|]).
  assert (0 < MAX_CONCURRENT_REQUESTS) as Hc by reflexivity.
  assert (dom ({["verbose" := VBool false]} : dict)
          ⊆ ({["verbose"]} : gset string)) as Hdom.
  { rewrite dom_singleton_L. by set_unfold. }
  destruct (constructors_get_verbose Demo.import_module Demo.WebCrawler
              [0]%nat (Demo.start 0 Demo.quiet))
    as (calls & Hcalls & Hverbose & Hboth).
  destruct (Hboth _ _ Hc (demo_resolves_extraction _ Hdom)
              (demo_resolves_chunking _ Hdom))
    as (da & dc & _ & _ & Hlist).
  exists calls. split; [exact Hcalls|]. split; [by rewrite Hlist|].
  intros m cn kw Hin. by destruct (Hverbose m cn kw Hin).
Defined.

(** * The index page *)

Lemma string_length_append (a b : string) :
  String.length (a +:+ b) = (String.length a + String.length b)%nat.
Proof. induction a as [|c a IH]; simpl; [done|]. by rewrite IH. Qed.

Lemma substring_all (s : string) : String.substring 0 (String.length s) s = s.
Proof. induction s as [|c s IH]; simpl; [done|]. by rewrite IH. Qed.

Lemma substring_append_left (a b : string) :
  String.substring 0 (String.length a) (a +:+ b) = a.
Proof.
  induction a as [|c a IH]; simpl; [by destruct b|]. by rewrite IH.
Qed.

Lemma substring_append_right (a b : string) :
  String.substring (String.length a) (String.length b) (a +:+ b) = b.
Proof. induction a as [|c a IH]; simpl; [apply substring_all|done]. Qed.

(** A string is its first [k] characters followed by the rest. *)
Lemma substring_split (k : nat) (s : string) :
  (k ≤ String.length s)%nat →
  String.substring 0 k s +:+ String.substring k (String.length s - k) s = s.
Proof.
  revert k. induction s as [|c s IH]; intros k Hk; simpl in Hk.
  - by replace k with 0%nat by lia.
  - destruct k as [|k]; simpl.
    + by rewrite substring_all.
    + change (String c (String.substring 0 k s
                        +:+ String.substring k (String.length s - k) s)
              = String c s).
      f_equal. apply IH. lia.
Qed.

Lemma drop_last_append (a b : string) :
  drop_last (String.length b) (a +:+ b) = a.
Proof.
  unfold drop_last. rewrite string_length_append.
  replace (String.length a + String.length b - String.length b)%nat
    with (String.length a) by lia.
  apply substring_append_left.
Qed.

Lemma endswith_append (a b : string) : endswith (a +:+ b) b = true.
Proof.
  unfold endswith. rewrite string_length_append.
  replace (String.length a + String.length b - String.length b)%nat
    with (String.length a) by lia.
  rewrite substring_append_right, String.eqb_refl, andb_true_r.
  apply Nat.leb_le. lia.
Qed.

(** A string that ends with [b] is its slice before [b], followed by
    [b]. *)
Lemma endswith_split (s b : string) :
  endswith s b = true → s = drop_last (String.length b) s +:+ b.
Proof.
  unfold endswith, drop_last.
  intros [Hlen Heq%String.eqb_eq]%andb_true_iff.
  apply Nat.leb_le in Hlen.
  pose proof (substring_split (String.length s - String.length b) s)
    as Hsplit.
  replace (String.length s - (String.length s - String.length b))%nat
    with (String.length b) in Hsplit by lia.
  rewrite Heq in Hsplit. symmetry. apply Hsplit. lia.
Qed.

Section PagesFacts.

Context (read_file : string → exn + string).

(** What the loop leaves under a key: the text of the page of that name
    when the directory lists it, and what was there before otherwise. *)
Lemma load_partials_lookup (p p' : gmap string string) files stem content :
  NoDup files →
  load_partials read_file p files = inr p' →
  p' !! stem = Some content ↔
  (((stem +:+ ".html") ∈ files ∧
    read_file (stem +:+ ".html") = inr content) ∨
   (((stem +:+ ".html") ∉ files) ∧ p !! stem = Some content)).
Proof.
  revert p. induction files as [|f rest IH]; intros p Hnodup; simpl.
  - intros [= ->]. split; [|by intros [[?%elem_of_nil _]|[_ ?]]].
    intros Hp. right. split; [by intros ?%elem_of_nil|done].
  - apply NoDup_cons in Hnodup as [Hf Hnodup].
    destruct (endswith f ".html") eqn:Hhtml.
    + destruct (read_file f) as [e|text] eqn:Hread; [done|].
      intros Hload. rewrite (IH _ Hnodup Hload).
      apply endswith_split in Hhtml. simpl in Hhtml.
      destruct (decide (stem = drop_last 5 f)) as [->|Hne].
      * rewrite <-Hhtml, lookup_insert_eq, Hread. split.
        -- intros [[Hin _]|[_ [= <-]]]; [done|].
           left. split; [by left|done].
        -- intros [[_ [= <-]]|[Hout _]].
           ++ by right.
           ++ destruct Hout. by left.
      * rewrite lookup_insert_ne by done.
        assert (stem +:+ ".html" ≠ f) as Hf'.
        { intros Heq. apply Hne. rewrite <-Heq.
          symmetry. apply (drop_last_append stem ".html"). }
        split.
        -- intros [[Hin Hr]|[Hout Hp]].
           ++ left. split; [by right|done].
           ++ right. split; [|done].
              by intros [?|?]%elem_of_cons.
        -- intros [[[?|Hin]%elem_of_cons Hr]|[Hout Hp]]; [done|..].
           ++ by left.
           ++ right. split; [|done]. intros Hin. apply Hout. by right.
    + intros Hload. rewrite (IH _ Hnodup Hload).
      assert (stem +:+ ".html" ≠ f) as Hf'.
      { intros <-. by rewrite endswith_append in Hhtml. }
      split.
      * intros [[Hin Hr]|[Hout Hp]].
        -- left. split; [by right|done].
        -- right. split; [|done]. by intros [?|?]%elem_of_cons.
      * intros [[[?|Hin]%elem_of_cons Hr]|[Hout Hp]]; [done|..].
        -- by left.
        -- right. split; [|done]. intros Hin. apply Hout. by right.
Qed.

(** The loop skips every name that does not end in [.html]. *)
Lemma load_partials_filter (read_file' : string → exn + string)
    (p : gmap string string) files :
  (∀ f, f ∈ files → endswith f ".html" = true →
        read_file f = read_file' f) →
  load_partials read_file p files
  = load_partials read_file' p
      (filter (λ f, endswith f ".html" = true) files).
Proof.
  revert p. induction files as [|f rest IH]; intros p Hagree; [done|].
  rewrite filter_cons. simpl.
  destruct (endswith f ".html") eqn:Hhtml.
  - rewrite decide_True by done. simpl. rewrite Hhtml.
    rewrite <-(Hagree f) by (done || by left).
    destruct (read_file f); [done|].
    apply IH. intros f' Hin. apply Hagree. by right.
  - rewrite decide_False by done.
    apply IH. intros f' Hin. apply Hagree. by right.
Qed.

(** The loop runs through exactly when every page it opens can be read. *)
Lemma load_partials_succeeds (p : gmap string string) files :
  (∃ p', load_partials read_file p files = inr p') ↔
  ∀ f, f ∈ files → endswith f ".html" = true →
       ∃ content, read_file f = inr content.
Proof.
  revert p. induction files as [|f rest IH]; intros p; simpl.
  - split; [by intros _ f ?%elem_of_nil|by eexists].
  - destruct (endswith f ".html") eqn:Hhtml.
    + destruct (read_file f) as [e|text] eqn:Hread.
      * split; [by intros [p' ?]|].
        intros Hall. destruct (Hall f) as [content Hc]; [by left|done|].
        congruence.
      * rewrite IH. split.
        -- intros Hall f' [->|Hin]%elem_of_cons Hf'; [by eexists|by apply Hall].
        -- intros Hall f' Hin. apply Hall. by right.
    + rewrite IH. split.
      * intros Hall f' [->|Hin]%elem_of_cons Hf'; [congruence|by apply Hall].
      * intros Hall f' Hin. apply Hall. by right.
Qed.

End PagesFacts.

Section IndexPage.

Context (read_file : string → exn + string).

(** X1.  When the directory lists no name twice, the context of the index
    page holds a text under a key exactly when the directory lists the
    page of that name -- the key followed by [.html] -- and the text is
    what reading that page gave.  The template is [index.html]. *)
Theorem read_index_partials files tpl (ctx : gmap string ctxval) :
  NoDup files →
  read_index (inr files) read_file = inr (tpl, ctx) →
  tpl = "index.html" ∧
  ∀ stem content,
    ctx !! stem = Some (CtxText content) ↔
    (stem +:+ ".html") ∈ files ∧
    read_file (stem +:+ ".html") = inr content.
Proof.
  unfold read_index. intros Hnodup.
  destruct (load_partials read_file ∅ files) as [e|partials] eqn:Hload;
    [done|].
  intros [= <- <-]. split; [done|]. intros stem content.
  assert (partials !! stem = Some content ↔
          (stem +:+ ".html") ∈ files ∧
          read_file (stem +:+ ".html") = inr content) as <-.
  { rewrite (load_partials_lookup read_file ∅ partials files stem content
               Hnodup Hload).
    rewrite lookup_empty. split; [by intros [?|[_ ?]]|by left]. }
  rewrite lookup_union, lookup_fmap.
  destruct (partials !! stem) as [text|]; simpl.
  - rewrite union_Some_l. split; by intros [= ->].
  - rewrite (left_id_L None _). split; [|done].
    by intros [_ ?]%lookup_singleton_Some.
Qed.

(** X2.  The context holds the request object under [request], and under
    no other key, unless the directory lists a page [request.html]: then
    the text of that page has taken its place. *)
Theorem read_index_request files tpl (ctx : gmap string ctxval) :
  NoDup files →
  read_index (inr files) read_file = inr (tpl, ctx) →
  (ctx !! "request" = Some CtxRequest ↔ "request.html" ∉ files) ∧
  (∀ key, ctx !! key = Some CtxRequest → key = "request") ∧
  ("request.html" ∈ files →
   ∃ content, read_file "request.html" = inr content ∧
              ctx !! "request" = Some (CtxText content)).
Proof.
  unfold read_index. intros Hnodup.
  destruct (load_partials read_file ∅ files) as [e|partials] eqn:Hload;
    [done|].
  intros [= <- <-].
  assert (∀ content,
            partials !! "request" = Some content ↔
            "request.html" ∈ files ∧ read_file "request.html" = inr content)
    as Hreq.
  { intros content.
    rewrite (load_partials_lookup read_file ∅ partials files "request"
               content Hnodup Hload).
    rewrite lookup_empty. change ("request" +:+ ".html") with "request.html".
    split; [by intros [?|[_ ?]]|by left]. }
  split; [|split].
  - rewrite lookup_union, lookup_fmap.
    destruct (partials !! "request") as [text|] eqn:Hp; simpl.
    + rewrite union_Some_l. split; [done|].
      intros Hout. by destruct (proj1 (Hreq text) eq_refl) as [? _].
    + rewrite (left_id_L None _), lookup_singleton_eq. split; [|done].
      intros _ Hin.
      destruct (proj1 (load_partials_succeeds read_file ∅ files)
                  (ex_intro _ partials Hload) "request.html" Hin eq_refl)
        as [content Hcontent].
      by pose proof (proj2 (Hreq content) (conj Hin Hcontent)).
  - intros key. rewrite lookup_union, lookup_fmap.
    destruct (partials !! key) as [text|]; simpl.
    + by rewrite union_Some_l.
    + rewrite (left_id_L None _). by intros [-> _]%lookup_singleton_Some.
  - intros Hin.
    destruct (proj1 (load_partials_succeeds read_file ∅ files)
                (ex_intro _ partials Hload) "request.html" Hin eq_refl)
      as [content Hcontent].
    exists content. split; [done|].
    rewrite lookup_union, lookup_fmap.
    rewrite (proj2 (Hreq content)) by done. simpl.
    by rewrite union_Some_l.
Qed.

(** X3.  Names that do not end in [.html] are never opened and leave no
    mark: the page built from a directory is the page built from its
    [.html] names alone, by any way of reading files that agrees on
    those. *)
Theorem read_index_other_files files (read_file' : string → exn + string) :
  (∀ f, f ∈ files → endswith f ".html" = true →
        read_file f = read_file' f) →
  read_index (inr files) read_file
  = read_index (inr (filter (λ f, endswith f ".html" = true) files))
      read_file'.
Proof.
  intros Hagree. unfold read_index.
  by rewrite (load_partials_filter read_file read_file' ∅ files Hagree).
Qed.

(** X4.  The handler gets as far as line 72 -- it has a template name and
    a context to hand to the renderer -- exactly when the directory can be
    listed and every [.html] name in it can be read; one such name that
    cannot makes the handler raise before that, while an unreadable name
    of another kind does no harm.  What the renderer does with the context
    is not part of the model. *)
Theorem read_index_succeeds listdir :
  (∃ page, read_index listdir read_file = inr page) ↔
  ∃ files,
    listdir = inr files ∧
    ∀ f, f ∈ files → endswith f ".html" = true →
         ∃ content, read_file f = inr content.
Proof.
  unfold read_index. destruct listdir as [e|files].
  - split; [by intros [? ?]|by intros (? & ? & _)].
  - split.
    + intros [page Hpage]. exists files. split; [done|].
      apply (load_partials_succeeds read_file ∅).
      destruct (load_partials read_file ∅ files) as [e|p]; [done|].
      by exists p.
    + intros (files' & [= <-] & Hall).
      apply (load_partials_succeeds read_file ∅) in Hall as [p ->].
      by eexists.
Qed.

End IndexPage.

(** * The resolver and the handler at their edges *)

Section Edges.

Context {Strategy : Type}.
Context (import_module : string → option (PyModule Strategy)).
Context (WebCrawler : bool → exn + Crawler Strategy).

Implicit Types (s : State Strategy) (req : CrawlRequest)
  (es cs : Strategy) (da dc : dict).

(** X5.  Whatever the resolver is given, the exception it raises is never
    an [ImportError] and never an [AttributeError]: those two never leave
    it as they are. *)
Theorem import_strategy_raises module_name class_name kwargs s e :
  (import_strategy import_module module_name class_name kwargs s).1 = inl e →
  (∀ msg, e ≠ ImportError msg) ∧ (∀ msg, e ≠ AttributeError msg).
Proof.
  rewrite import_strategy_run.
  destruct (import_module module_name) as [m|];
    [|by intros [= <-]].
  destruct class_name as [n|]; [|by intros [= <-]].
  destruct (m n) as [c|]; [|by intros [= <-]].
  by destruct (c kwargs) as [[]|]; simpl; intros [= <-].
Qed.

(** X6.  A registered class whose constructor raises an [AttributeError]
    is reported like a class that does not exist -- a 400 with the detail
    "Class ... not found in ..." -- although the constructor was called;
    the outcome is the one that a namespace without the class gives.
    Likewise a constructor that raises an [ImportError] is reported as a
    missing module. *)
Theorem constructor_lookup_error_masked module_name n c kwargs s :
  registered import_module module_name n c →
  (∀ msg, c kwargs = inl (AttributeError msg) →
     import_strategy import_module module_name (Some n) kwargs s
     = (inl (HTTPException 400
               ("Class " +:+ n +:+ " not found in " +:+ module_name
                +:+ ".")),
        add_event (EvConstruct module_name (Some n) kwargs) s) ∧
     ∀ (import_module' : string → option (PyModule Strategy)) m',
       import_module' module_name = Some m' → m' n = None →
       (import_strategy import_module' module_name (Some n) kwargs s).1
       = (import_strategy import_module module_name (Some n) kwargs s).1) ∧
  (∀ msg, c kwargs = inl (ImportError msg) →
     import_strategy import_module module_name (Some n) kwargs s
     = (inl (HTTPException 400
               ("Module " +:+ module_name +:+ " not found.")),
        add_event (EvConstruct module_name (Some n) kwargs) s)).
Proof.
  intros (m & Hm & Hn). split.
  - intros msg Hc. rewrite !import_strategy_run, Hm, Hn, Hc.
    split; [done|]. intros import_module' m' Hm' Hn'.
    by rewrite import_strategy_run, Hm', Hn'.
  - intros msg Hc. by rewrite import_strategy_run, Hm, Hn, Hc.
Qed.

Lemma first_raised_nil order : first_raised order ([] : list Future) = None.
Proof. induction order as [|i rest IH]; [done|]. simpl. exact IH. Qed.

(** The fan-out, in every case. *)
Lemma submit_jobs_total i req es cs us s :
  submit_jobs WebCrawler i req es cs us s =
  match WebCrawler true, us with
  | inl e, [] => (inr [], s)
  | inl e, _ :: _ => (inl e, s)
  | inr crawler, _ =>
      (inr (imap (λ k url, crawler (i + k)%nat (job_call req es cs url)) us),
       {| current_requests := current_requests s;
          crawl_request := crawl_request s;
          trace := trace s ++
                   imap (λ k url,
                           EvSubmit (i + k)%nat (job_call req es cs url))
                     us |})
  end.
Proof.
  destruct (WebCrawler true) as [e|crawler] eqn:Hw.
  - destruct us as [|url rest]; [done|].
    by rewrite submit_jobs_cons, Hw.
  - by apply submit_jobs_run.
Qed.

(** X7.  A request whose strategy name is null is not answered with a 400:
    with both argument mappings present and the strategy module there, a
    [TypeError] is raised -- by [getattr], or already by the call of the
    resolver when the mapping holds a key [module_name] or [class_name] --
    and escapes as a 500; no constructor has been called for it and no job
    submitted, and the slot is released.  So it is for the extraction name,
    and for the chunking name once the extraction strategy is built. *)
Theorem null_strategy_name_fails order s da dc :
  let req := crawl_request s in
  let out := crawl_urls import_module WebCrawler order s in
  current_requests s < MAX_CONCURRENT_REQUESTS →
  extraction_strategy_args req = Some da →
  chunking_strategy_args req = Some dc →
  (is_Some (import_module "crawl4ai.extraction_strategy") →
   extraction_strategy req = None →
   (∃ msg, out.1 = inl (TypeError msg)) ∧
   http_status out.1 = 500 ∧
   trace out.2 = trace s ∧
   current_requests out.2 = current_requests s) ∧
  (∀ es,
     resolves import_module "crawl4ai.extraction_strategy"
       (extraction_strategy req) (extraction_strategy_args req) es →
     is_Some (import_module "crawl4ai.chunking_strategy") →
     chunking_strategy req = None →
     (∃ msg, out.1 = inl (TypeError msg)) ∧
     http_status out.1 = 500 ∧
     trace out.2
     = (trace s ++
        [EvConstruct "crawl4ai.extraction_strategy"
           (extraction_strategy req) (with_verbose da)])%list ∧
     current_requests out.2 = current_requests s).
Proof.
  intros req out Hc Hda Hdc. unfold out.
  rewrite crawl_urls_run, bool_decide_eq_false_2 by lia.
  rewrite crawl_body_run. cbn [crawl_request set_current_requests].
  fold req. rewrite Hda, Hdc. cbn zeta. unfold release. split.
  - intros [m Hm] Hnone.
    destruct (collides da).
    + cbn. repeat split; [by eexists|lia].
    + rewrite import_strategy_run, Hm, Hnone. cbn.
      repeat split; [by eexists|lia].
  - intros es (d & Hd & Hfree & Hrun)%import_strategy_resolves [m Hm] Hnone.
    assert (d = da) as -> by congruence.
    rewrite Hfree, Hrun. destruct (collides dc).
    + cbn. repeat split; [by eexists|lia].
    + rewrite import_strategy_run, Hm, Hnone. cbn.
      repeat split; [by eexists|lia].
Qed.

(** X8.  A request whose argument mapping is null fails with a [TypeError]
    -- a 500 -- before any strategy is looked up.  When it is the
    extraction mapping, the request object and the trace are as they were;
    when it is the chunking mapping, the extraction mapping has already
    been written to.  Either way the slot is released. *)
Theorem null_args_mapping_fails order s :
  let req := crawl_request s in
  let out := crawl_urls import_module WebCrawler order s in
  current_requests s < MAX_CONCURRENT_REQUESTS →
  (extraction_strategy_args req = None →
   (∃ msg, out.1 = inl (TypeError msg)) ∧
   http_status out.1 = 500 ∧
   out.2 = s) ∧
  (∀ da,
     extraction_strategy_args req = Some da →
     chunking_strategy_args req = None →
     (∃ msg, out.1 = inl (TypeError msg)) ∧
     http_status out.1 = 500 ∧
     out.2 = set_crawl_request
               (set_extraction_strategy_args (Some (with_verbose da)) req)
               s).
Proof.
  intros req out Hc. unfold out.
  rewrite crawl_urls_run, bool_decide_eq_false_2 by lia.
  rewrite crawl_body_run. cbn [crawl_request set_current_requests].
  fold req. unfold release, set_current_requests, set_crawl_request. split.
  - intros ->. cbn. repeat split; [by eexists|].
    destruct s as [c r t]. cbn. f_equal. lia.
  - intros da -> ->. cbn. repeat split; [by eexists|].
    f_equal. lia.
Qed.

(** X9.  An admitted request with an empty URL list whose strategies
    resolve (names registered, constructors returning, no key
    [module_name] or [class_name] in the two mappings) is answered with an
    empty result list, for any completion order and whether or not the
    engine can be started: the engine is never asked for, and no job is
    submitted. *)
Theorem empty_batch_reply order s es cs :
  let req := crawl_request s in
  let out := crawl_urls import_module WebCrawler order s in
  current_requests s < MAX_CONCURRENT_REQUESTS →
  resolves import_module "crawl4ai.extraction_strategy"
    (extraction_strategy req) (extraction_strategy_args req) es →
  resolves import_module "crawl4ai.chunking_strategy"
    (chunking_strategy req) (chunking_strategy_args req) cs →
  urls req = [] →
  out.1 = inr {| results := [] |} ∧
  submitted (trace out.2) = submitted (trace s) ∧
  current_requests out.2 = current_requests s.
Proof.
  intros req out Hc (da & Hda & Hna & He)%import_strategy_resolves
    (dc & Hdc & Hnc & Hk)%import_strategy_resolves Hurls. unfold out.
  rewrite crawl_urls_run, bool_decide_eq_false_2 by lia.
  rewrite crawl_body_run. cbn [crawl_request set_current_requests].
  fold req. rewrite Hda, Hdc. cbn zeta. rewrite Hna, He, Hnc, Hk, Hurls.
  cbn [submit_jobs ret]. rewrite first_raised_nil.
  cbn [fst snd trace current_requests add_event omap list_omap
       set_current_requests set_crawl_request].
  split; [by unfold shape_results; destruct (negb _)|].
  split; [|unfold release; lia].
  rewrite !submitted_app. cbn. by rewrite !app_nil_r.
Qed.

(** X10.  When the engine cannot be started and the request has at least
    one URL, an admitted request whose strategies resolve (names
    registered, constructors returning, no key [module_name] or
    [class_name] in the two mappings) fails with the engine's exception:
    both strategies have been built, no job has been submitted, and the
    slot is released. *)
Theorem engine_unavailable_fails order s es cs e :
  let req := crawl_request s in
  let out := crawl_urls import_module WebCrawler order s in
  current_requests s < MAX_CONCURRENT_REQUESTS →
  resolves import_module "crawl4ai.extraction_strategy"
    (extraction_strategy req) (extraction_strategy_args req) es →
  resolves import_module "crawl4ai.chunking_strategy"
    (chunking_strategy req) (chunking_strategy_args req) cs →
  WebCrawler true = inl e →
  urls req ≠ [] →
  out.1 = inl e ∧
  length (constructed (trace out.2))
  = (length (constructed (trace s)) + 2)%nat ∧
  submitted (trace out.2) = submitted (trace s) ∧
  current_requests out.2 = current_requests s.
Proof.
  intros req out Hc (da & Hda & Hna & He)%import_strategy_resolves
    (dc & Hdc & Hnc & Hk)%import_strategy_resolves Hw Hurls. unfold out.
  rewrite crawl_urls_run, bool_decide_eq_false_2 by lia.
  rewrite crawl_body_run. cbn [crawl_request set_current_requests].
  fold req. rewrite Hda, Hdc. cbn zeta. rewrite Hna, He, Hnc, Hk.
  rewrite submit_jobs_total, Hw.
  destruct (urls req) as [|url rest]; [done|].
  cbn [fst snd trace current_requests add_event set_current_requests
       set_crawl_request].
  split; [done|]. split; [|split; [|unfold release; lia]].
  - rewrite !constructed_app, !length_app. cbn. lia.
  - rewrite !submitted_app. cbn. by rewrite !app_nil_r.
Qed.

(** X16.  An admitted request one of whose argument mappings holds a key
    [module_name] or [class_name] fails with a [TypeError] -- a 500 --
    raised by the call of the resolver itself, whatever the strategy names
    are and whatever their constructors accept.  When it is the extraction
    mapping, no constructor has been called; when it is the chunking
    mapping and the extraction strategy resolved, only the extraction
    constructor has.  No job is submitted and the slot is released. *)
Theorem colliding_keyword_fails order s da dc :
  let req := crawl_request s in
  let out := crawl_urls import_module WebCrawler order s in
  current_requests s < MAX_CONCURRENT_REQUESTS →
  extraction_strategy_args req = Some da →
  chunking_strategy_args req = Some dc →
  (collides da = true →
   (∃ msg, out.1 = inl (TypeError msg)) ∧
   http_status out.1 = 500 ∧
   trace out.2 = trace s ∧
   current_requests out.2 = current_requests s) ∧
  (∀ es,
     resolves import_module "crawl4ai.extraction_strategy"
       (extraction_strategy req) (extraction_strategy_args req) es →
     collides dc = true →
     (∃ msg, out.1 = inl (TypeError msg)) ∧
     http_status out.1 = 500 ∧
     trace out.2
     = (trace s ++
        [EvConstruct "crawl4ai.extraction_strategy"
           (extraction_strategy req) (with_verbose da)])%list ∧
     current_requests out.2 = current_requests s).
Proof.
  intros req out Hc Hda Hdc. unfold out.
  rewrite crawl_urls_run, bool_decide_eq_false_2 by lia.
  rewrite crawl_body_run. cbn [crawl_request set_current_requests].
  fold req. rewrite Hda, Hdc. cbn zeta. unfold release. split.
  - intros ->. cbn. repeat split; [by eexists|lia].
  - intros es (d & Hd & Hfree & Hrun)%import_strategy_resolves Hcol.
    assert (d = da) as -> by congruence.
    rewrite Hfree, Hrun, Hcol. cbn.
    repeat split; [by eexists|lia].
Qed.

End Edges.

(** * What the handler does not depend on, and handlers in a row *)

Section Independence.

Context {Strategy : Type}.
Context (import_module : string → option (PyModule Strategy)).
Context (WebCrawler : bool → exn + Crawler Strategy).

Implicit Types (s : State Strategy) (req : CrawlRequest).

(** X11.  The field [extract_blocks] of a request is accepted and then
    ignored: setting it to any value changes neither the outcome, nor the
    calls made, nor the counter -- the handler does with the changed
    request what it does with the original, and leaves the field as it
    found it. *)
Theorem extract_blocks_ignored (b : bool) order s :
  crawl_urls import_module WebCrawler order
    (set_crawl_request (set_extract_blocks b (crawl_request s)) s)
  = ((crawl_urls import_module WebCrawler order s).1,
     set_crawl_request
       (set_extract_blocks b
          (crawl_request (crawl_urls import_module WebCrawler order s).2))
       (crawl_urls import_module WebCrawler order s).2).
Proof.
  rewrite !crawl_urls_run.
  cbn [current_requests set_crawl_request].
  case_bool_decide as Hcap; [reflexivity|].
  rewrite !crawl_body_run.
  cbn [crawl_request set_current_requests set_crawl_request
       set_extract_blocks extraction_strategy_args chunking_strategy_args
       extraction_strategy chunking_strategy urls include_raw_html].
  destruct (extraction_strategy_args (crawl_request s)) as [da|];
    [|reflexivity].
  destruct (chunking_strategy_args (crawl_request s)) as [dc|]; [|reflexivity].
  cbn zeta. destruct (collides da); [reflexivity|].
  rewrite !import_strategy_run.
  destruct (import_module "crawl4ai.extraction_strategy") as [me|];
    [|reflexivity].
  destruct (extraction_strategy (crawl_request s)) as [ne|]; [|reflexivity].
  destruct (me ne) as [ce|]; [|reflexivity].
  destruct (ce (with_verbose da)) as [e|es]; [destruct e; reflexivity|].
  destruct (collides dc); [reflexivity|].
  rewrite !import_strategy_run.
  destruct (import_module "crawl4ai.chunking_strategy") as [mc|];
    [|reflexivity].
  destruct (chunking_strategy (crawl_request s)) as [nc|]; [|reflexivity].
  destruct (mc nc) as [cc|]; [|reflexivity].
  destruct (cc (with_verbose dc)) as [e|cs]; [destruct e; reflexivity|].
  rewrite !submit_jobs_total. unfold job_call.
  cbn [word_count_threshold bypass_cache css_selector verbose
       set_chunking_strategy_args set_extraction_strategy_args
       set_extract_blocks].
  destruct (WebCrawler true) as [e|crawler].
  - destruct (urls (crawl_request s)); [|reflexivity].
    destruct (first_raised order []); reflexivity.
  - cbn [fst snd].
    match goal with
    | |- context [first_raised order ?f] =>
        destruct (first_raised order f); reflexivity
    end.
Qed.

(** X12.  The order in which the jobs finish can change the outcome only:
    the counter, the request object and the calls made are the same for
    any two orders.  For two orders in which every job finishes, the
    request is answered with a reply under the one exactly when it is
    under the other. *)
Theorem completion_order_leaves_state order order' s :
  (crawl_urls import_module WebCrawler order s).2
  = (crawl_urls import_module WebCrawler order' s).2 ∧
  (order ≡ₚ seq 0 (length (urls (crawl_request s))) →
   order' ≡ₚ seq 0 (length (urls (crawl_request s))) →
   ∀ reply,
     (crawl_urls import_module WebCrawler order s).1 = inr reply ↔
     (crawl_urls import_module WebCrawler order' s).1 = inr reply).
Proof.
  split.
  - rewrite !crawl_urls_run. case_bool_decide as Hcap; [done|].
    rewrite !crawl_body_run. cbn [crawl_request set_current_requests].
    destruct (extraction_strategy_args _) as [da|]; [|done].
    destruct (chunking_strategy_args _) as [dc|]; [|done].
    cbn zeta.
    destruct (collides da); [done|].
    destruct (import_strategy _ "crawl4ai.extraction_strategy" _ _ _)
      as [[e|es] s3]; [done|].
    destruct (collides dc); [done|].
    destruct (import_strategy _ "crawl4ai.chunking_strategy" _ _ _)
      as [[e|cs] s4]; [done|].
    destruct (submit_jobs _ _ _ _ _ _ _) as [[e|futures] s5]; [done|].
    by destruct (first_raised order futures),
                (first_raised order' futures).
  - intros Hperm Hperm' reply. split.
    + destruct (crawl_urls _ _ order s) as [out s1] eqn:Hrun.
      simpl. intros ->.
      by rewrite (crawl_urls_order_irrelevant import_module WebCrawler
                    order order' s reply s1 Hperm Hrun).
    + destruct (crawl_urls _ _ order' s) as [out s1] eqn:Hrun.
      simpl. intros ->.
      by rewrite (crawl_urls_order_irrelevant import_module WebCrawler
                    order' order s reply s1 Hperm' Hrun).
Qed.

(** X13.  Requests handled one after another, each to its end: if the
    counter is below the capacity when the first arrives, every one of
    them is admitted -- its outcome is the outcome of its [try] block --
    and the counter ends where it began.  If the counter is at the
    capacity, every one of them is rejected with a 429, and the counter
    stays. *)
Theorem serve_in_turn (c : Z) (reqs : list (CrawlRequest * list nat)) :
  (serve import_module WebCrawler c reqs).2 = c ∧
  length (serve import_module WebCrawler c reqs).1 = length reqs ∧
  (c < MAX_CONCURRENT_REQUESTS →
   (serve import_module WebCrawler c reqs).1
   = (λ r : CrawlRequest * list nat,
        (crawl_body import_module WebCrawler r.2
           {| current_requests := c + 1;
              crawl_request := r.1;
              trace := [] |}).1) <$> reqs) ∧
  (MAX_CONCURRENT_REQUESTS ≤ c →
   ∀ out, out ∈ (serve import_module WebCrawler c reqs).1 →
          ∃ detail, out = inl (HTTPException 429 detail)).
Proof.
  assert (∀ req order,
            current_requests (receive import_module WebCrawler c req order).2
            = c) as Hback.
  { intros req order. unfold receive. rewrite crawl_urls_run.
    cbn [current_requests]. case_bool_decide as Hcap; [done|].
    cbn [snd set_current_requests current_requests].
    rewrite (crawl_body_preserves_counter import_module WebCrawler order).
    cbn. unfold release. lia. }
  induction reqs as [|[req order] rest (IHc & IHlen & IHin & IHout)];
    [by repeat split; try done; intros _ out ?%elem_of_nil|].
  simpl. rewrite Hback.
  destruct (serve import_module WebCrawler c rest) as [outs c'] eqn:Hrest.
  simpl in *. split; [done|]. split; [by rewrite IHlen|]. split.
  - intros Hc. rewrite IHin by done. f_equal.
    unfold receive. rewrite crawl_urls_run.
    cbn [current_requests]. by rewrite bool_decide_eq_false_2 by lia.
  - intros Hc out [->|Hin]%elem_of_cons; [|by apply IHout].
    unfold receive. rewrite crawl_urls_run.
    cbn [current_requests]. rewrite bool_decide_eq_true_2 by lia.
    by eexists.
Qed.

End Independence.

(** * The state machine at rest and at capacity *)

Lemma in_flight_zero hs :
  (∀ i p, hs !! i = Some p → p ≠ InFlight) → in_flight hs = 0.
Proof.
  induction hs as [|h hs IH]; intros Hnone; [done|].
  assert (in_flight hs = 0) as Hrest
    by (apply IH; intros i p Hi; by apply (Hnone (S i))).
  destruct h; simpl; [done| |done].
  by destruct (Hnone 0%nat InFlight).
Qed.

(** X14.  Whenever no handler is between its two critical sections -- every
    request that arrived has been rejected or has finished, or is still to
    be looked at -- the counter is 0: no slot is ever left behind. *)
Theorem quiescent_counter_zero sys :
  reachable sys →
  (∀ i p, handlers sys !! i = Some p → p ≠ InFlight) →
  counter sys = 0.
Proof.
  intros [Hcount _]%reachable_invariant Hnone.
  rewrite Hcount. by apply in_flight_zero.
Qed.

(** X15.  In a reachable state the admission check rejects exactly when
    ten handlers are in flight: a request is never turned away while fewer
    than ten others are between admission and release. *)
Theorem rejected_only_when_full sys :
  reachable sys →
  (∃ e, try_admit (counter sys) = inl e) ↔
  in_flight (handlers sys) = MAX_CONCURRENT_REQUESTS.
Proof.
  intros [Hcount Hrange]%reachable_invariant.
  unfold try_admit. rewrite <-Hcount. split.
  - intros [e He]. case_bool_decide; [lia|done].
  - intros Hfull. rewrite bool_decide_eq_true_2 by lia. by eexists.
Qed.

(** * The further properties on concrete inputs *)

(** X1, run: two pages and a text file. *)
Lemma read_index_partials_witness :
  ∃ ctx : gmap string ctxval,
    read_index (inr Site.files) Site.read_file = inr ("index.html", ctx) ∧
    ctx !! "header" = Some (CtxText "<header/>") ∧
    ¬ ∃ content, ctx !! "notes" = Some (CtxText content).
Proof.
  set (out := read_index (inr Site.files) Site.read_file).
  set (ctx := match out with inr page => page.2 | inl _ => ∅ end).
  assert (read_index (inr Site.files) Site.read_file
          = inr ("index.html", ctx)) as Hrun by (by vm_compute).
  assert (NoDup Site.files) as Hnodup
    by (apply (bool_decide_unpack _); vm_compute; exact I).
  destruct (read_index_partials Site.read_file Site.files _ ctx Hnodup Hrun)
    as [_ Hctx].
  exists ctx. split; [exact Hrun|]. split.
  - apply Hctx. split; [by left|done].
  - intros [content [Hin _]%Hctx].
    apply (bool_decide_pack _) in Hin. by vm_compute in Hin.
Defined.

(** X2, run: a partial called [request.html] takes the place of the
    request object. *)
Lemma read_index_request_witness :
  ∃ ctx : gmap string ctxval,
    read_index (inr Site.files_with_request) Site.read_file
    = inr ("index.html", ctx) ∧
    ctx !! "request" = Some (CtxText "<form/>") ∧
    ctx !! "request" ≠ Some CtxRequest.
Proof.
  set (out := read_index (inr Site.files_with_request) Site.read_file).
  set (ctx := match out with inr page => page.2 | inl _ => ∅ end).
  assert (read_index (inr Site.files_with_request) Site.read_file
          = inr ("index.html", ctx)) as Hrun by (by vm_compute).
  assert (NoDup Site.files_with_request) as Hnodup
    by (apply (bool_decide_unpack _); vm_compute; exact I).
  destruct (read_index_request Site.read_file Site.files_with_request _ ctx
              Hnodup Hrun) as (Hobject & _ & Htext).
  assert ("request.html" ∈ Site.files_with_request) as Hin
    by (right; by left).
  exists ctx. split; [exact Hrun|]. split.
  - destruct (Htext Hin) as (content & Hread & Hctx).
    by injection Hread as <-.
  - intros Hreq. by apply Hobject in Hreq.
Defined.

(** X3, run: the text file among the pages changes nothing. *)
Lemma read_index_other_files_witness :
  read_index (inr Site.files) Site.read_file
  = read_index (inr ["header.html"; "footer.html"]) Site.read_file.
Proof.
  exact (read_index_other_files Site.read_file Site.files Site.read_file
           (λ f _ _, eq_refl)).
Defined.

(** X5, run: the resolver, met with a constructor that raised an
    [AttributeError], raises something else. *)
Lemma import_strategy_raises_witness :
  ∃ e,
    (import_strategy Lab.import_module "crawl4ai.extraction_strategy"
       (Some "BrokenStrategy") ∅ (Demo.start 0 Lab.broken)).1 = inl e ∧
    ∀ msg, e ≠ AttributeError msg.
Proof.
  eexists. split; [by vm_compute|].
  eapply (import_strategy_raises Lab.import_module
            "crawl4ai.extraction_strategy" (Some "BrokenStrategy") ∅
            (Demo.start 0 Lab.broken)).
  by vm_compute.
Defined.

(** X6, run: the broken class is there, and is reported as not found. *)
Lemma constructor_lookup_error_masked_witness :
  (import_strategy Lab.import_module "crawl4ai.extraction_strategy"
     (Some "BrokenStrategy") ∅ (Demo.start 0 Lab.broken)).1
  = inl (HTTPException 400
           "Class BrokenStrategy not found in crawl4ai.extraction_strategy.").
Proof.
  assert (registered Lab.import_module "crawl4ai.extraction_strategy"
            "BrokenStrategy" Lab.BrokenStrategy) as Hreg
    by (by exists Lab.extraction_module).
  destruct (constructor_lookup_error_masked Lab.import_module
              "crawl4ai.extraction_strategy" "BrokenStrategy"
              Lab.BrokenStrategy ∅ (Demo.start 0 Lab.broken) Hreg)
    as [Hattr _].
  destruct (Hattr _ eq_refl) as [-> _]. reflexivity.
Defined.

(** X7, run: a request without an extraction strategy name. *)
Lemma null_strategy_name_fails_witness :
  http_status (Demo.handle 0 Lab.unnamed [0]%nat).1 = 500 ∧
  trace (Demo.handle 0 Lab.unnamed [0]%nat).2 = [].
Proof.
  destruct (null_strategy_name_fails Demo.import_module Demo.WebCrawler
              [0]%nat (Demo.start 0 Lab.unnamed) ∅ ∅
              eq_refl eq_refl eq_refl)
    as [Hextraction _].
  destruct (Hextraction (mk_is_Some _ _ eq_refl) eq_refl)
    as (_ & Hstatus & Htrace & _).
  split; [exact Hstatus|exact Htrace].
Defined.

(** X8, run: a null extraction mapping, and a null chunking mapping. *)
Lemma null_args_mapping_fails_witness :
  http_status (Demo.handle 0 Demo.null_args [0]%nat).1 = 500 ∧
  (Demo.handle 0 Demo.null_args [0]%nat).2 = Demo.start 0 Demo.null_args ∧
  http_status (Demo.handle 0 Lab.no_chunking_args [0]%nat).1 = 500.
Proof.
  destruct (null_args_mapping_fails Demo.import_module Demo.WebCrawler
              [0]%nat (Demo.start 0 Demo.null_args) eq_refl)
    as [Hextraction _].
  destruct (null_args_mapping_fails Demo.import_module Demo.WebCrawler
              [0]%nat (Demo.start 0 Lab.no_chunking_args) eq_refl)
    as [_ Hchunking].
  destruct (Hextraction eq_refl) as (_ & Hstatus & Hstate).
  destruct (Hchunking ∅ eq_refl eq_refl) as (_ & Hstatus' & _).
  split; [exact Hstatus|]. split; [exact Hstate|exact Hstatus'].
Defined.

(** X9, run: no URLs and no engine, and still a reply. *)
Lemma empty_batch_reply_witness :
  (crawl_urls Demo.import_module Lab.no_engine [3; 1]%nat
     (Demo.start 0 Lab.no_urls)).1 = inr {| results := [] |}.
Proof.
  assert (dom (∅ : dict) ⊆ ({["verbose"]} : gset string)) as Hdom
    by (by set_unfold).
  exact (proj1 (empty_batch_reply Demo.import_module Lab.no_engine
                  [3; 1]%nat (Demo.start 0 Lab.no_urls) _ _ eq_refl
                  (demo_resolves_extraction ∅ Hdom)
                  (demo_resolves_chunking ∅ Hdom) eq_refl)).
Defined.

(** X10, run: two URLs and no engine. *)
Lemma engine_unavailable_fails_witness :
  (crawl_urls Demo.import_module Lab.no_engine [1; 0]%nat
     (Demo.start 0 Demo.batch_ok)).1
  = inl (OtherError "WebDriverException" "chromedriver not found") ∧
  submitted (trace (crawl_urls Demo.import_module Lab.no_engine [1; 0]%nat
                      (Demo.start 0 Demo.batch_ok)).2) = [].
Proof.
  assert (dom (∅ : dict) ⊆ ({["verbose"]} : gset string)) as Hdom
    by (by set_unfold).
  assert (urls (crawl_request (Demo.start 0 Demo.batch_ok)) ≠ []) as Hurls
    by done.
  destruct (engine_unavailable_fails Demo.import_module Lab.no_engine
              [1; 0]%nat (Demo.start 0 Demo.batch_ok) _ _ _ eq_refl
              (demo_resolves_extraction ∅ Hdom)
              (demo_resolves_chunking ∅ Hdom) eq_refl Hurls)
    as (Hout & _ & Hsub & _).
  split; [exact Hout|exact Hsub].
Defined.

(** X16, run: the class named a second time in the extraction mapping,
    and the module named a second time in the chunking mapping. *)
Lemma colliding_keyword_fails_witness :
  http_status (Demo.handle 0 Lab.colliding [0]%nat).1 = 500 ∧
  trace (Demo.handle 0 Lab.colliding [0]%nat).2 = [] ∧
  http_status (Demo.handle 0 Lab.colliding_chunking [0]%nat).1 = 500 ∧
  length (constructed
            (trace (Demo.handle 0 Lab.colliding_chunking [0]%nat).2))
  = 1%nat.
Proof.
  assert (dom (∅ : dict) ⊆ ({["verbose"]} : gset string)) as Hdom
    by (by set_unfold).
  destruct (colliding_keyword_fails Demo.import_module Demo.WebCrawler
              [0]%nat (Demo.start 0 Lab.colliding) _ _
              eq_refl eq_refl eq_refl)
    as [Hextraction _].
  destruct (colliding_keyword_fails Demo.import_module Demo.WebCrawler
              [0]%nat (Demo.start 0 Lab.colliding_chunking) _ _
              eq_refl eq_refl eq_refl)
    as [_ Hchunking].
  destruct (Hextraction eq_refl) as (_ & Hstatus & Htrace & _).
  destruct (Hchunking _ (demo_resolves_extraction ∅ Hdom) eq_refl)
    as (_ & Hstatus' & Htrace' & _).
  split; [exact Hstatus|]. split; [exact Htrace|].
  split; [exact Hstatus'|].
  unfold Demo.handle. by rewrite Htrace'.
Defined.

(** X12, run: three jobs, one of which raises, finishing in two
    different orders. *)
Lemma completion_order_leaves_state_witness :
  (Demo.handle 0 Demo.batch_down [0; 1; 2]%nat).2
  = (Demo.handle 0 Demo.batch_down [2; 1; 0]%nat).2 ∧
  ∀ reply,
    (Demo.handle 0 Demo.batch_ok [0; 1]%nat).1 = inr reply ↔
    (Demo.handle 0 Demo.batch_ok [1; 0]%nat).1 = inr reply.
Proof.
  split.
  - exact (proj1 (completion_order_leaves_state Demo.import_module
                    Demo.WebCrawler [0; 1; 2]%nat [2; 1; 0]%nat
                    (Demo.start 0 Demo.batch_down))).
  - apply (proj2 (completion_order_leaves_state Demo.import_module
                    Demo.WebCrawler [0; 1]%nat [1; 0]%nat
                    (Demo.start 0 Demo.batch_ok))).
    + reflexivity.
    + apply perm_swap.
Defined.

Lemma all_done_reachable : reachable Lab.all_done.
Proof.
  unfold reachable, Lab.all_done.
  eapply rtc_l; [apply step_arrive|]. simpl.
  eapply rtc_l; [apply step_arrive|]. simpl.
  eapply rtc_l; [by apply (step_admit _ 0 1)|]. simpl.
  eapply rtc_l; [by apply (step_admit _ 1 2)|]. simpl.
  eapply rtc_l; [by apply (step_release _ 0)|]. simpl.
  eapply rtc_l; [by apply (step_release _ 1)|]. simpl.
  apply rtc_refl.
Qed.

Lemma one_left_reachable : reachable Demo.one_left.
Proof.
  unfold reachable, Demo.one_left.
  eapply rtc_l; [apply step_arrive|]. simpl.
  eapply rtc_l; [apply step_arrive|]. simpl.
  eapply rtc_l; [by apply (step_admit _ 0 1)|]. simpl.
  eapply rtc_l; [by apply (step_admit _ 1 2)|]. simpl.
  eapply rtc_l; [by apply (step_release _ 0)|]. simpl.
  apply rtc_refl.
Qed.

(** X14, run: both requests have finished. *)
Lemma quiescent_counter_zero_witness : counter Lab.all_done = 0.
Proof.
  apply (quiescent_counter_zero Lab.all_done all_done_reachable).
  intros [|[|i]] p; simpl; intros [= <-] || intros ?; done.
Defined.

(** X15, run: with one handler in flight nobody is turned away. *)
Lemma rejected_only_when_full_witness :
  ¬ ∃ e, try_admit (counter Demo.one_left) = inl e.
Proof.
  intros Hrej.
  apply (rejected_only_when_full Demo.one_left one_left_reachable) in Hrej.
  by vm_compute in Hrej.
Defined.
